(** * The tagifai pipelines: data split, training runs, tuning and loading

    A shallow embedding of [src/pipelines/main.py].  The Python functions
    [elt_data], [train_model], [optimize], [load_artifacts] and
    [predict_tag] are written as programs of a small state-and-exception
    monad over the file system, the remote csv resources and the MLflow
    tracking store.  Code the file imports and does not define
    ([train.train], [train.objective], [predict.predict], the [utils]
    serialisers, the constants of [config]) is a parameter of the
    development. *)

From Stdlib Require Import ZArith QArith Qcanon List Lia Ascii.
From stdpp Require Import base numbers option list sorting strings gmap fin_maps.

Local Open Scope Z_scope.

(** ** Python values and exceptions *)

(** The values an argument file holds: JSON scalars.  A float is taken as a
    rational, which leaves out NaN and the infinities. *)
Inductive Value : Type :=
  | VInt (z : Z)
  | VFloat (q : Qc)
  | VStr (s : string)
  | VBool (b : bool)
  | VNone.

(** An [args] dictionary ([vars(args)], [args.__dict__]). *)
Abbreviation ArgumentSet := (gmap string Value).

(** Where a file lives: on the disk, under its path, in the temporary
    directory [dp] of a [with tempfile.TemporaryDirectory() as dp] block,
    under its path relative to [dp], or behind a url.  An exception of a
    read carries the location, as the [filename] of Python's [OSError]
    does. *)
Inductive Location : Type :=
  | Disk (path : string)
  | Staged (rel : string)
  | Remote (url : string).

(** The Python exceptions the pipelines can end with. *)
Inductive exn : Type :=
  | FileNotFoundError (l : Location)
  | JSONDecodeError (l : Location)
  | UnpicklingError (l : Location)
  | ParserError (l : Location)
  | URLError (url : string)
  | KeyError (key : string)
  | ValueError (msg : string)
  | MlflowException (run_id : string)
  | TrainingError (msg : string).

(** The class of an exception as Python names it.  The two loader cases
    stand for whatever exception [json.load] and [joblib.load] raise on a
    file they cannot load. *)
Definition py_class (e : exn) : string :=
  match e with
  | FileNotFoundError _ => "FileNotFoundError"
  | JSONDecodeError _ => "JSONDecodeError"
  | UnpicklingError _ => "UnpicklingError"
  | ParserError _ => "ParserError"
  | URLError _ => "URLError"
  | KeyError _ => "KeyError"
  | ValueError _ => "ValueError"
  | MlflowException _ => "MlflowException"
  | TrainingError _ => "TrainingError"
  end.

Inductive Result (A : Type) : Type :=
  | Ok (a : A)
  | Raise (e : exn).
Arguments Ok {A} a.
Arguments Raise {A} e.

(** ** Serialisers *)

(** A serialiser pair as the pipelines use them: [json.dump]/[json.load]
    behind [utils.save_dict]/[utils.load_dict], [LabelEncoder.save]/[load],
    [joblib.dump]/[joblib.load], [to_csv]/[read_csv].  Reading back what was
    written gives the object again; other file contents may fail to load. *)
Class Codec (A : Type) : Type := {
  dumps : A → string;
  loads : string → option A;
  loads_dumps : ∀ a, loads (dumps a) = Some a
}.

(** ** Tables *)

Record ProjectRow : Type := { p_id : Z; p_cols : list string }.
Record TagRow : Type := { t_id : Z; t_tag : option string }.
(** A row of the merged table: the columns of both sides, [id] once. *)
Record LabeledRow : Type := { r_id : Z; r_cols : list string; r_tag : option string }.

(** [pd.merge(projects, tags, on="id")], the default inner join: one row for
    every pair with equal [id], in the order of the left table. *)
Definition pd_merge (projects : list ProjectRow) (tags : list TagRow) : list LabeledRow :=
  p ← projects;
  t ← filter (λ t, t_id t = p_id p) tags;
  [ {| r_id := p_id p; r_cols := p_cols p; r_tag := t_tag t |} ].

(** [df[df.tag.notnull()]] *)
Definition notnull (r : LabeledRow) : bool :=
  match r_tag r with Some _ => true | None => false end.

Definition drop_untagged (df : list LabeledRow) : list LabeledRow :=
  filter (λ r, notnull r = true) df.

(** A slice bound [i] of Python on a sequence of [n] items: a negative bound
    counts from the end, and every bound is clipped to [0..n]. *)
Definition slice_bound (n : nat) (i : Z) : nat :=
  if i <? 0 then Z.to_nat (Z.max 0 (Z.of_nat n + i))
  else Z.to_nat (Z.min i (Z.of_nat n)).

(** [l[i:]] *)
Definition slice_from {A} (i : Z) (l : list A) : list A :=
  drop (slice_bound (length l) i) l.

(** [l[:i]] *)
Definition slice_to {A} (i : Z) (l : list A) : list A :=
  take (slice_bound (length l) i) l.

(** ** The world the pipelines act on *)

(** A run of the tracking store. *)
Record Run : Type := {
  run_metrics : gmap string Qc;
  run_params : ArgumentSet;
  run_artifacts : gmap string string
}.

Record World : Type := {
  web : gmap string string;        (* url ↦ content, read only *)
  fs : gmap string string;         (* path ↦ content *)
  tracking : gmap string Run       (* run id ↦ run *)
}.

Definition set_fs (f : gmap string string → gmap string string) (w : World) : World :=
  {| web := web w; fs := f (fs w); tracking := tracking w |}.

Definition set_tracking (f : gmap string Run → gmap string Run) (w : World) : World :=
  {| web := web w; fs := fs w; tracking := f (tracking w) |}.

(** State and exceptions: a program takes the world and ends with a value or
    a raised exception, and the world as it left it. *)
Definition M (A : Type) : Type := World → Result A * World.

Definition ret {A} (a : A) : M A := λ w, (Ok a, w).
Definition raise {A} (e : exn) : M A := λ w, (Raise e, w).
Definition bind {A B} (k : A → M B) (m : M A) : M B :=
  λ w, match m w with
       | (Ok a, w') => k a w'
       | (Raise e, w') => (Raise e, w')
       end.

(** The programs below are written with the notation [x ← m; k] for
    [bind (λ x, k) m]. *)
#[global] Instance M_ret : MRet M := @ret.
#[global] Instance M_bind : MBind M := @bind.

Definition lift {A} (r : Result A) : M A := λ w, (r, w).

(** [Path(a, b)] *)
Definition Path (dir name : string) : string := dir +:+ "/" +:+ name.

(** [open(p).read()] *)
Definition read_file (p : string) : M string :=
  λ w, match fs w !! p with
       | Some c => (Ok c, w)
       | None => (Raise (FileNotFoundError (Disk p)), w)
       end.

(** [open(p, "w").write(c)] *)
Definition write_file (p c : string) : M unit :=
  λ w, (Ok tt, set_fs <[p := c]> w).

(** Fetching a url. *)
Definition fetch (url : string) : M string :=
  λ w, match web w !! url with
       | Some c => (Ok c, w)
       | None => (Raise (URLError url), w)
       end.

(** Decoding a file that was read, with the exception of the decoder. *)
Definition decoded {A} `{Codec A} (err : exn) (c : string) : M A :=
  match loads c with
  | Some a => ret a
  | None => raise err
  end.

(** A file of the temporary directory. *)
Definition staged_load {A} `{Codec A} (dp : gmap string string)
    (err : Location → exn) (rel : string) : Result A :=
  match dp !! rel with
  | None => Raise (FileNotFoundError (Staged rel))
  | Some c => match loads c with
              | Some a => Ok a
              | None => Raise (err (Staged rel))
              end
  end.

(** ** Optuna trials *)

Inductive TrialState : Type := COMPLETE | PRUNED | FAIL.

#[global] Instance TrialState_eq_dec : EqDecision TrialState.
Proof. solve_decision. Defined.

(** A finished trial as the study keeps it ([FrozenTrial]): [value] is what
    the objective returned, [user_attrs_f1] the user attribute ["f1"] (the
    column [user_attrs_f1] of [study.trials_dataframe()]). *)
Record FrozenTrial : Type := {
  number : nat;
  state : TrialState;
  value : option Qc;
  params : ArgumentSet;
  user_attrs_f1 : option Qc
}.

(** How a call of the objective ends: with a value, with [TrialPruned],
    with another exception, or with a return value the study does not take
    (NaN, [None]), for which it records the trial as failed and goes on. *)
Inductive Outcome : Type :=
  | Returns (v : Qc)
  | RaisesTrialPruned (last_report : option Qc)
  | Raises (e : exn)
  | ReturnsInvalid.

(** What one call of the objective leaves on its trial: the parameters it
    sampled with [trial.suggest_*], the user attribute it set, its end.  A
    pruned trial keeps the last value it reported, when it reported one. *)
Record Evaluation : Type := {
  sampled : ArgumentSet;
  attr_f1 : option Qc;
  outcome : Outcome
}.

Definition freeze (n : nat) (ev : Evaluation) : FrozenTrial :=
  {| number := n;
     state := match outcome ev with
              | Returns _ => COMPLETE
              | RaisesTrialPruned _ => PRUNED
              | Raises _ | ReturnsInvalid => FAIL
              end;
     value := match outcome ev with
              | Returns v => Some v
              | RaisesTrialPruned last => last
              | Raises _ | ReturnsInvalid => None
              end;
     params := sampled ev;
     user_attrs_f1 := attr_f1 ev |}.

(** [study.best_trial] of a study with [direction="maximize"]: the study
    keeps the first completed trial and replaces it by a later completed one
    only when that one's value is strictly greater. *)
Definition update_best (best : option FrozenTrial) (t : FrozenTrial) : option FrozenTrial :=
  match state t with
  | COMPLETE =>
      match best with
      | None => Some t
      | Some b =>
          match value b, value t with
          | Some vb, Some vt => if bool_decide (vb < vt)%Qc then Some t else Some b
          | None, _ => Some t
          | Some _, None => Some b
          end
      end
  | _ => best
  end.

Definition best_trial (trials : list FrozenTrial) : Result FrozenTrial :=
  match foldl update_best None trials with
  | Some b => Ok b
  | None => Raise (ValueError "No trials are completed yet.")
  end.

(** [trials_df.sort_values(["user_attrs_f1"], ascending=False)]: the frame
    has the column when some trial carries the attribute, a trial without it
    has NaN there and sorts last; without the column the call raises. *)
Definition f1_before (a b : FrozenTrial) : Prop :=
  match user_attrs_f1 a, user_attrs_f1 b with
  | Some x, Some y => (y ≤ x)%Qc
  | Some _, None => True
  | None, Some _ => False
  | None, None => True
  end.

#[global] Instance f1_before_dec a b : Decision (f1_before a b).
Proof. unfold f1_before. destruct (user_attrs_f1 a), (user_attrs_f1 b); apply _. Defined.

Definition sort_values_f1 (trials_df : list FrozenTrial) : Result (list FrozenTrial) :=
  if existsb (λ t, bool_decide (is_Some (user_attrs_f1 t))) trials_df
  then Ok (merge_sort f1_before trials_df)
  else Raise (KeyError "user_attrs_f1").

(** ** The pruning policy *)

Module MedianPruner.

(** [optuna.pruners.MedianPruner(n_startup_trials=5, n_warmup_steps=5)] *)
Definition n_startup_trials : nat := 5.
Definition n_warmup_steps : nat := 5.

Fixpoint insert_sorted (x : Qc) (l : list Qc) : list Qc :=
  match l with
  | [] => [x]
  | y :: l' => if bool_decide (x ≤ y)%Qc then x :: l else y :: insert_sorted x l'
  end.

Definition sort (l : list Qc) : list Qc := foldr insert_sorted [] l.

Definition median (l : list Qc) : option Qc :=
  let s := sort l in
  let n := length s in
  if Nat.even n
  then lo ← s !! (n / 2 - 1)%nat; hi ← s !! (n / 2)%nat; Some ((lo + hi) / 2)%Qc
  else s !! (n / 2)%nat.

(** The intermediate values the completed trials reported at a step: a
    trial's history is the list of its reports, report [i] at step [i]. *)
Definition values_at (step : nat) (completed : list (list Qc)) : list Qc :=
  omap (λ h, h !! step) completed.

(** Modelled from the spec: the pruner class itself is a library of the
    project and not part of [src/]; section 4.2 step 2 says when it fires.
    [completed] holds the histories of the trials that completed before,
    [recorded] the reports of the current trial before this one, [v] the
    value reported now, at step [length recorded].  The study maximises,
    so worse is smaller. *)
Definition should_prune (completed : list (list Qc)) (recorded : list Qc) (v : Qc) : bool :=
  (n_startup_trials <=? length completed)%nat
  && (n_warmup_steps <=? length recorded)%nat
  && match median (values_at (length recorded) completed) with
     | Some m => bool_decide (v < m)%Qc
     | None => false
     end.

Inductive Terminal : Type :=
  | COMPLETED
  | PRUNED_AT (step : nat).

(** Modelled from the spec: one trial of section 4.2 step 2.  The
    evaluator reports [todo] step by step, the policy is asked after each
    report and stops the trial at once when it fires. *)
Fixpoint run_trial (completed : list (list Qc)) (recorded todo : list Qc)
    : Terminal * list Qc :=
  match todo with
  | [] => (COMPLETED, recorded)
  | v :: rest =>
      if should_prune completed recorded v
      then (PRUNED_AT (length recorded), recorded ++ [v])
      else run_trial completed (recorded ++ [v]) rest
  end.


End MedianPruner.

(** The reports of the completed trials among [trials], when trial [k]
    reports [reports k]: a completed trial reported all of them. *)
Definition histories (reports : nat → list Qc) (trials : list FrozenTrial)
    : list (list Qc) :=
  omap (λ t, match state t with
             | COMPLETE => Some (reports (number t))
             | _ => None
             end) trials.

(** Modelled from the spec: the objective of section 4.2 steps 2 and 3, in
    the shape [optimize] hands to the study.  Trial [k] samples
    [sample k], reports [reports k] step by step with the pruner asked
    after each report, against the reports of the trials of the study that
    completed; when stopped it raises [TrialPruned], else it records its
    metric [final k] as attribute and returns it. *)
Definition reporting_objective (reports : nat → list Qc) (sample : nat → ArgumentSet)
    (final : nat → Qc)
    : ArgumentSet → list LabeledRow → list FrozenTrial → nat → ArgumentSet * Evaluation :=
  λ a df trials k,
    match MedianPruner.run_trial (histories reports trials) [] (reports k) with
    | (MedianPruner.COMPLETED, _) =>
        (a, {| sampled := sample k; attr_f1 := Some (final k);
               outcome := Returns (final k) |})
    | (MedianPruner.PRUNED_AT _, h) =>
        (a, {| sampled := sample k; attr_f1 := None;
               outcome := RaisesTrialPruned (last h) |})
    end.


(** ** The error classes of the design *)

(** Modelled from the spec: section 7 names the classes of failure, the
    code raises the exceptions of Python and its libraries. *)
Inductive ErrorClass : Type :=
  | ConfigurationError
  | OptimizationFailure
  | NotFoundError
  | CorruptArtifactError
  | StorageError.

(** ** The pipelines *)

(** A performance report: [performance["overall"]] holds the three metrics
    the run logs, [slices] stands for the other sections. *)
Record Performance : Type := {
  precision : Qc;
  recall : Qc;
  f1 : Qc;
  slices : list (string * Qc)
}.

(** The objects [train.train] builds and [predict.predict] returns, with
    their serialisers: [LabelEncoder.save]/[load], [joblib.dump]/
    [joblib.load] and [mlflow.sklearn.log_model].  The pipelines only store
    and load them. *)
Class Objects : Type := {
  LabelEncoder : Type;
  Vectorizer : Type;
  Model : Type;
  Prediction : Type;
  json_label_encoder :: Codec LabelEncoder;
  joblib_vectorizer :: Codec Vectorizer;
  pickle_model :: Codec Model
}.

(** The dictionary [train.train] returns, also what [load_artifacts]
    returns. *)
Record Artifacts `{Objects} : Type := {
  args : ArgumentSet;
  label_encoder : LabelEncoder;
  vectorizer : Vectorizer;
  model : Model;
  performance : Performance
}.

(** What [main.py] imports: the constants of [config], the functions of
    [train], [predict] and [utils], pandas' csv reader and writer, and the
    identifiers of the tracking store. *)
Class Env `{Objects} : Type := {
  DATA_DIR : string;
  CONFIG_DIR : string;
  PROJECTS_URL : string;
  TAGS_URL : string;
  (** [utils.save_dict]/[utils.load_dict] *)
  json_args :: Codec ArgumentSet;
  json_performance :: Codec Performance;
  (** [to_csv]/[read_csv] *)
  csv_projects :: Codec (list ProjectRow);
  csv_tags :: Codec (list TagRow);
  csv_labeled :: Codec (list LabeledRow);
  (** [train.train(df, args)] *)
  train : list LabeledRow → ArgumentSet → Result Artifacts;
  (** [train.objective(args, df, trial)]: it is handed the one [args] object
      of [optimize] at every trial and may change it, so the object is
      threaded through; the trial gives it its number and the study so far. *)
  objective :
    ArgumentSet → list LabeledRow → list FrozenTrial → nat → ArgumentSet * Evaluation;
  (** [predict.predict(texts, artifacts)] *)
  predict : list string → Artifacts → list Prediction;
  (** The identifier the tracking store gives a new run. *)
  new_run_id : gmap string Run → string
}.

Section Pipelines.

Context {objs : Objects} {env : Env}.

(** *** MLflow *)

Definition empty_run : Run :=
  {| run_metrics := ∅; run_params := ∅; run_artifacts := ∅ |}.

(** [with mlflow.start_run(...)] and [mlflow.active_run().info.run_id] *)
Definition start_run : M string :=
  λ w, let run_id := new_run_id (tracking w) in
       (Ok run_id, set_tracking <[run_id := empty_run]> w).

Definition log_metric (run_id key : string) (v : Qc) : M unit :=
  λ w, (Ok tt, set_tracking (alter (λ r,
          {| run_metrics := <[key := v]> (run_metrics r);
             run_params := run_params r;
             run_artifacts := run_artifacts r |}) run_id) w).

Definition log_params (run_id : string) (ps : ArgumentSet) : M unit :=
  λ w, (Ok tt, set_tracking (alter (λ r,
          {| run_metrics := run_metrics r;
             run_params := ps ∪ run_params r;
             run_artifacts := run_artifacts r |}) run_id) w).

(** [mlflow.log_artifacts(dp, artifact_path=...)]: every file of the
    directory, under the artifact path. *)
Definition log_artifacts (run_id : string) (dp : list (string * string))
    (artifact_path : string) : M unit :=
  λ w, (Ok tt, set_tracking (alter (λ r,
          {| run_metrics := run_metrics r;
             run_params := run_params r;
             run_artifacts :=
               foldl (λ m f, <[Path artifact_path f.1 := f.2]> m)
                     (run_artifacts r) dp |}) run_id) w).

(** [mlflow.sklearn.log_model(model, artifact_path)]: the pickled model
    as [model.pkl] under the artifact path (the environment files MLflow
    writes next to it are left out). *)
Definition log_model (run_id : string) (m : Model) (artifact_path : string) : M unit :=
  λ w, (Ok tt, set_tracking (alter (λ r,
          {| run_metrics := run_metrics r;
             run_params := run_params r;
             run_artifacts :=
               <[Path artifact_path "model.pkl" := dumps m]> (run_artifacts r) |})
          run_id) w).

(** [client.download_artifacts(run_id, "", dp)]: the artifacts of the
    run, copied into the empty directory [dp]. *)
Definition download_artifacts (run_id : string) : M (gmap string string) :=
  λ w, match tracking w !! run_id with
       | Some r => (Ok (run_artifacts r), w)
       | None => (Raise (MlflowException run_id), w)
       end.

(** [MLflowCallback(metric_name="f1")]: after a trial, a run with the
    trial's parameters and, when it has one, its value as metric ["f1"]. *)
Definition mlflow_callback (t : FrozenTrial) : M unit :=
  run_id ← start_run;
  log_params run_id (params t);;
  match value t with
  | Some v => log_metric run_id "f1" v
  | None => mret tt
  end.

(** *** [elt_data] *)

(** The two tables are typed: [loads] of their codecs stands for
    [pd.read_csv] on a table that has the columns the function uses, [id]
    in both and [tag] in the tags, on which [pd.merge] and [df.tag] go
    through.  A table that pandas reads and that lacks them makes the code
    raise in the transform, after the two copies were written; it is not a
    table of the model, and the properties of [elt_data] are stated for the
    tables that load and for urls that cannot be fetched. *)
Definition elt_data : M unit :=
  (* Extract + Load *)
  c ← fetch PROJECTS_URL;
  projects ← decoded (ParserError (Remote PROJECTS_URL)) c;
  c ← fetch TAGS_URL;
  tags ← decoded (ParserError (Remote TAGS_URL)) c;
  write_file (Path DATA_DIR "projects.csv") (dumps (projects : list ProjectRow));;
  write_file (Path DATA_DIR "tags.csv") (dumps (tags : list TagRow));;
  (* Transform *)
  let df := pd_merge projects tags in
  let df := drop_untagged df in
  let test_df := slice_from (-300) df in
  let train_df := slice_to (-300) df in
  write_file (Path DATA_DIR "labeled_projects.csv") (dumps train_df);;
  write_file (Path DATA_DIR "test_labeled_projects.csv") (dumps test_df).

(** *** [train_model] *)

Definition read_labeled : M (list LabeledRow) :=
  let p := Path DATA_DIR "labeled_projects.csv" in
  c ← read_file p;
  decoded (ParserError (Disk p)) c.

Definition load_dict (filepath : string) : M ArgumentSet :=
  c ← read_file filepath;
  decoded (JSONDecodeError (Disk filepath)) c.

(** The files [train_model] writes into its temporary directory. *)
Definition stage (artifacts : Artifacts) : list (string * string) :=
  [ ("args.json", dumps (args artifacts));
    ("label_encoder.json", dumps (label_encoder artifacts));
    ("vectorizer.pkl", dumps (vectorizer artifacts));
    ("performance.json", dumps (performance artifacts)) ].

(** The experiment and the name of the run only label the run in the
    store. *)
Definition train_model (args_fp experiment_name run_name : string)
    (test_run : bool) : M unit :=
  (* Load labeled data *)
  df ← read_labeled;
  (* Train *)
  namespace ← load_dict args_fp;
  run_id ← start_run;
  artifacts ← lift (train df namespace);
  let performance := performance artifacts in
  (* Log metrics and parameters *)
  log_metric run_id "precision" (precision performance);;
  log_metric run_id "recall" (recall performance);;
  log_metric run_id "f1" (f1 performance);;
  log_params run_id (args artifacts);;
  (* Log artifacts *)
  log_artifacts run_id (stage artifacts) "artifacts";;
  log_model run_id (model artifacts) "model";;
  (* Save to config *)
  if negb test_run
  then write_file (Path CONFIG_DIR "run_id.txt") run_id;;
       write_file (Path CONFIG_DIR "performance.json") (dumps performance)
  else mret tt.

(** *** [optimize] *)

(** [study.optimize(objective, n_trials=...)] with the callback: the
    trials run one after the other while fewer than [n_trials] have been
    started; an exception of the objective other than [TrialPruned] ends
    the study. *)
Fixpoint study_optimize (df : list LabeledRow) (n_trials : nat)
    (args : ArgumentSet) (trials : list FrozenTrial)
    : M (ArgumentSet * list FrozenTrial) :=
  match n_trials with
  | O => mret (args, trials)
  | S k =>
      let r := objective args df trials (length trials) in
      let t := freeze (length trials) r.2 in
      match outcome r.2 with
      | Raises e => raise e
      | _ => mlflow_callback t;; study_optimize df k r.1 (trials ++ [t])
      end
  end.

Definition optimize (args_fp study_name : string) (num_trials : Z) : M unit :=
  (* Load labeled data *)
  df ← read_labeled;
  (* Optimize *)
  args ← load_dict args_fp;
  study ← study_optimize df (Z.to_nat num_trials) args [];
  (* Best trial *)
  let trials_df := study.2 in
  trials_df ← lift (sort_values_f1 trials_df);
  best ← lift (best_trial study.2);
  let args := params best ∪ study.1 in
  write_file args_fp (dumps args).

(** *** [load_artifacts] and [predict_tag] *)

(** [if not run_id: run_id = open(Path(config.CONFIG_DIR, "run_id.txt")).read()]:
    [None] and the empty string are the falsy identifiers. *)
Definition falsy (run_id : option string) : bool :=
  match run_id with
  | None => true
  | Some s => bool_decide (s = "")
  end.

Definition resolve (run_id : option string) : M string :=
  if falsy run_id
  then read_file (Path CONFIG_DIR "run_id.txt")
  else mret (default "" run_id).

(** The five files read from the downloaded directory, in the order of
    the code. *)
Definition read_bundle (dp : gmap string string) : Result Artifacts :=
  match staged_load dp JSONDecodeError "artifacts/args.json" with
  | Raise e => Raise e
  | Ok a =>
  match staged_load dp UnpicklingError "artifacts/vectorizer.pkl" with
  | Raise e => Raise e
  | Ok v =>
  match staged_load dp JSONDecodeError "artifacts/label_encoder.json" with
  | Raise e => Raise e
  | Ok l =>
  match staged_load dp JSONDecodeError "artifacts/performance.json" with
  | Raise e => Raise e
  | Ok p =>
  match staged_load dp UnpicklingError "model/model.pkl" with
  | Raise e => Raise e
  | Ok m =>
      Ok {| args := a; label_encoder := l; vectorizer := v;
            model := m; performance := p |}
  end end end end end.

(** The body of [load_artifacts] once the identifier is settled. *)
Definition fetch_bundle (run_id : string) : M Artifacts :=
  dp ← download_artifacts run_id;
  lift (read_bundle dp).

Definition load_artifacts (run_id : option string) : M Artifacts :=
  run_id ← resolve run_id;
  fetch_bundle run_id.

Definition predict_tag (text : string) (run_id : option string) : M (list Prediction) :=
  run_id ← resolve run_id;
  artifacts ← load_artifacts (Some run_id);
  let prediction := predict [text] artifacts in
  mret prediction.

(** *** Which class of section 7 an exception falls in *)

(** Modelled from the spec: NotFoundError is "run identifier or pointer
    unresolved", which in the code is the [FileNotFoundError] of [open] on
    the pointer file (the exception carries the path, its [filename]) and
    the exception of the tracking client for a run it does not know.  The
    code defines no exception class of its own: what it raises when a
    member of a bundle is missing or does not load is the exception of the
    read that failed ([py_class]), which is in none of the classes, and so
    are the other exceptions. *)
Definition error_class (e : exn) : option ErrorClass :=
  match e with
  | FileNotFoundError (Disk p) =>
      if bool_decide (p = Path CONFIG_DIR "run_id.txt") then Some NotFoundError else None
  | MlflowException _ => Some NotFoundError
  | _ => None
  end.

(** *** What a training run leaves behind *)

(** The record of a run after [train_model] logged the artifacts [a]. *)
Definition logged_run (a : Artifacts) : Run :=
  {| run_metrics :=
       <["f1" := f1 (performance a)]>
         (<["recall" := recall (performance a)]>
            (<["precision" := precision (performance a)]> ∅));
     run_params := args a ∪ ∅;
     run_artifacts :=
       <["model/model.pkl" := dumps (model a)]>
         (<["artifacts/performance.json" := dumps (performance a)]>
            (<["artifacts/vectorizer.pkl" := dumps (vectorizer a)]>
               (<["artifacts/label_encoder.json" := dumps (label_encoder a)]>
                  (<["artifacts/args.json" := dumps (args a)]> ∅)))) |}.

(** A stored file is there and loads as [x]. *)
Definition holds {A} `{Codec A} (dp : gmap string string) (rel : string) (x : A) : Prop :=
  ∃ c, dp !! rel = Some c ∧ loads c = Some x.

(** A stored file is there and loads. *)
Definition loadable (A : Type) `{Codec A} (dp : gmap string string) (rel : string) : Prop :=
  ∃ c (x : A), dp !! rel = Some c ∧ loads c = Some x.

(** All five members of a bundle are stored and load. *)
Definition intact (dp : gmap string string) : Prop :=
  loadable ArgumentSet dp "artifacts/args.json"
  ∧ loadable LabelEncoder dp "artifacts/label_encoder.json"
  ∧ loadable Vectorizer dp "artifacts/vectorizer.pkl"
  ∧ loadable Performance dp "artifacts/performance.json"
  ∧ loadable Model dp "model/model.pkl".

(** The trials of a study carry their index as number, and a completed
    trial carries the value its objective returned. *)
Definition numbered (trials : list FrozenTrial) : Prop :=
  ∀ i t, trials !! i = Some t →
    number t = i ∧ (state t = COMPLETE → is_Some (value t)).


(** *** The flows *)

(** [elt_data_pipeline] *)
Definition elt_data_pipeline : M unit :=
  elt_data.

(** [train_model_pipeline]: [train_model] is called with its default
    [test_run=False]. *)
Definition train_model_pipeline (args_fp experiment_name run_name : string) : M unit :=
  elt_data;;
  optimize args_fp "optimization" 20;;
  train_model args_fp experiment_name run_name false.

(** The flow with any number of trials in place of its 20. *)
Definition flow (num_trials : Z) (args_fp experiment_name run_name : string) : M unit :=
  elt_data;;
  optimize args_fp "optimization" num_trials;;
  train_model args_fp experiment_name run_name false.

(** The files [load_artifacts] reads, in the order it reads them. *)
Definition reading_order : list string :=
  [ "artifacts/args.json"; "artifacts/vectorizer.pkl"; "artifacts/label_encoder.json";
    "artifacts/performance.json"; "model/model.pkl" ].

(** The file [rel] of a bundle is stored and loads as the member it holds. *)
Definition member_loadable (dp : gmap string string) (rel : string) : Prop :=
  (rel = "artifacts/args.json" ∧ loadable ArgumentSet dp rel)
  ∨ (rel = "artifacts/vectorizer.pkl" ∧ loadable Vectorizer dp rel)
  ∨ (rel = "artifacts/label_encoder.json" ∧ loadable LabelEncoder dp rel)
  ∨ (rel = "artifacts/performance.json" ∧ loadable Performance dp rel)
  ∨ (rel = "model/model.pkl" ∧ loadable Model dp rel).

End Pipelines.

(** ** A concrete instance *)

(** Serialisers exist for every type that can be enumerated: the code of a
    value as a string of binary digits.  The instance below runs the
    pipelines on concrete data. *)
Fixpoint pos_to_string (p : positive) : string :=
  match p with
  | xH => ""
  | xO p => String "0"%char (pos_to_string p)
  | xI p => String "1"%char (pos_to_string p)
  end.

Fixpoint string_to_pos (s : string) : option positive :=
  match s with
  | EmptyString => Some xH
  | String a s =>
      p ← string_to_pos s;
      if Ascii.eqb a "0"%char then Some (xO p)
      else if Ascii.eqb a "1"%char then Some (xI p)
      else None
  end.

Lemma string_to_pos_to_string p : string_to_pos (pos_to_string p) = Some p.
Proof. induction p as [p IH|p IH|]; simpl; by rewrite ?IH. Qed.

Definition countable_dumps `{Countable A} (a : A) : string :=
  pos_to_string (encode a).

Definition countable_loads `{Countable A} (s : string) : option A :=
  match string_to_pos s with
  | Some p => decode p
  | None => None
  end.

Lemma countable_loads_dumps `{Countable A} (a : A) :
  countable_loads (countable_dumps a) = Some a.
Proof.
  unfold countable_loads, countable_dumps.
  rewrite string_to_pos_to_string. apply decode_encode.
Qed.

Definition countable_codec (A : Type) `{Countable A} : Codec A :=
  {| dumps := countable_dumps;
     loads := countable_loads;
     loads_dumps := countable_loads_dumps |}.

#[global] Instance Value_eq_dec : EqDecision Value.
Proof. solve_decision. Defined.

#[global] Instance Value_countable : Countable Value.
Proof.
  refine (inj_countable'
    (λ v, match v with
          | VInt z => inl z
          | VFloat q => inr (inl q)
          | VStr s => inr (inr (inl s))
          | VBool b => inr (inr (inr (inl b)))
          | VNone => inr (inr (inr (inr ())))
          end)
    (λ x, match x with
          | inl z => VInt z
          | inr (inl q) => VFloat q
          | inr (inr (inl s)) => VStr s
          | inr (inr (inr (inl b))) => VBool b
          | inr (inr (inr (inr _))) => VNone
          end) _).
  by intros [].
Defined.

#[global] Instance Performance_eq_dec : EqDecision Performance.
Proof. solve_decision. Defined.

#[global] Instance Performance_countable : Countable Performance.
Proof.
  refine (inj_countable'
    (λ p, (precision p, recall p, f1 p, slices p))
    (λ x, {| precision := x.1.1.1; recall := x.1.1.2; f1 := x.1.2; slices := x.2 |}) _).
  by intros [].
Defined.

#[global] Instance ProjectRow_eq_dec : EqDecision ProjectRow.
Proof. solve_decision. Defined.
#[global] Instance ProjectRow_countable : Countable ProjectRow.
Proof.
  refine (inj_countable' (λ r, (p_id r, p_cols r))
            (λ x, {| p_id := x.1; p_cols := x.2 |}) _).
  by intros [].
Defined.

#[global] Instance TagRow_eq_dec : EqDecision TagRow.
Proof. solve_decision. Defined.
#[global] Instance TagRow_countable : Countable TagRow.
Proof.
  refine (inj_countable' (λ r, (t_id r, t_tag r))
            (λ x, {| t_id := x.1; t_tag := x.2 |}) _).
  by intros [].
Defined.

#[global] Instance LabeledRow_eq_dec : EqDecision LabeledRow.
Proof. solve_decision. Defined.
#[global] Instance LabeledRow_countable : Countable LabeledRow.
Proof.
  refine (inj_countable' (λ r, (r_id r, r_cols r, r_tag r))
            (λ x, {| r_id := x.1.1; r_cols := x.1.2; r_tag := x.2 |}) _).
  by intros [].
Defined.

Module Demo.

(** The label encoder is its list of classes, the vectorizer and the
    model are named, a prediction is a tag. *)
Definition objects : Objects :=
  {| LabelEncoder := list string;
     Vectorizer := string;
     Model := string;
     Prediction := string;
     json_label_encoder := countable_codec (list string);
     joblib_vectorizer := countable_codec string;
     pickle_model := countable_codec string |}.

Definition q (n : Z) (d : positive) : Qc := Q2Qc (n # d).

Definition report : Performance :=
  {| precision := q 4 5; recall := q 7 10; f1 := q 3 4; slices := [] |}.

Definition trained (df : list LabeledRow) (a : ArgumentSet) : @Artifacts objects :=
  @Build_Artifacts objects
    (<["num_classes" := VInt 2]> a) ["mlops"; "nlp"] "tfidf" "sgd" report.

(** Two trials that return the [f1] they record, the first the greater
    one; the later ones are pruned. *)
Definition evaluate (k : nat) : Evaluation :=
  match k with
  | 0%nat => {| sampled := {["lr" := VFloat (q 1 10)]};
                attr_f1 := Some (q 1 2); outcome := Returns (q 1 2) |}
  | 1%nat => {| sampled := {["lr" := VFloat (q 1 100)]};
                attr_f1 := Some (q 3 10); outcome := Returns (q 3 10) |}
  | _ => {| sampled := {["lr" := VFloat (q 1 1000)]};
            attr_f1 := None; outcome := RaisesTrialPruned (Some (q 1 10)) |}
  end.

Definition env : @Env objects :=
  {| DATA_DIR := "data";
     CONFIG_DIR := "config";
     PROJECTS_URL := "https://example.org/projects.csv";
     TAGS_URL := "https://example.org/tags.csv";
     json_args := countable_codec ArgumentSet;
     json_performance := countable_codec Performance;
     csv_projects := countable_codec (list ProjectRow);
     csv_tags := countable_codec (list TagRow);
     csv_labeled := countable_codec (list LabeledRow);
     train := λ df a, Ok (trained df a);
     objective := λ a df ts k, (a, evaluate k);
     predict := λ texts artifacts, (λ _, "nlp") <$> texts;
     new_run_id := λ tr, "run" +:+ pos_to_string (Pos.of_succ_nat (size tr)) |}.

Definition base_args : ArgumentSet :=
  <["lr" := VFloat (q 1 2)]> (<["alpha" := VFloat (q 1 10000)]> ∅).

Definition rows : list LabeledRow :=
  [ {| r_id := 1; r_cols := ["a title"]; r_tag := Some "nlp" |};
    {| r_id := 2; r_cols := ["another"]; r_tag := Some "mlops" |} ].

(** A disk with the labeled data and the argument file, no pointer. *)
Definition disk : gmap string string :=
  <["data/labeled_projects.csv" := dumps (Codec := countable_codec (list LabeledRow)) rows]>
    (<["config/args.json" := dumps (Codec := countable_codec ArgumentSet) base_args]> ∅).

Definition world : World := {| web := ∅; fs := disk; tracking := ∅ |}.

(** 301 projects, the first of them without a tag. *)
Definition projects : list ProjectRow :=
  (λ i, {| p_id := i; p_cols := ["title"] |}) <$> seqZ 0 301.
Definition tags : list TagRow :=
  (λ i, {| t_id := i; t_tag := if decide (i = 0) then None else Some "nlp" |})
    <$> seqZ 0 301.

Definition remote : World :=
  {| web := <["https://example.org/projects.csv" :=
                dumps (Codec := countable_codec (list ProjectRow)) projects]>
              (<["https://example.org/tags.csv" :=
                   dumps (Codec := countable_codec (list TagRow)) tags]> ∅);
     fs := ∅; tracking := ∅ |}.

(** A store with one run whose vectorizer file is not a pickle. *)
Definition corrupted_run : Run :=
  {| run_metrics := ∅; run_params := ∅;
     run_artifacts :=
       <["artifacts/vectorizer.pkl" := "corrupt"]>
         (run_artifacts (logged_run (objs:=objects) (env:=env) (trained rows base_args))) |}.

Definition corrupted : World :=
  {| web := ∅; fs := ∅; tracking := {[ "run1" := corrupted_run ]} |}.

(** The trials of the study of the instance with two trials. *)
Definition trial0 : FrozenTrial := freeze 0 (evaluate 0).

(** A store with a current run named by the pointer file. *)
Definition served : World :=
  {| web := ∅;
     fs := <["config/run_id.txt" := "current"]> disk;
     tracking :=
       {[ "current" := logged_run (objs:=objects) (env:=env) (trained [] base_args) ]} |}.

(** The instance with an objective whose trials are all pruned. *)
Definition env_pruned : @Env objects :=
  {| DATA_DIR := "data";
     CONFIG_DIR := "config";
     PROJECTS_URL := "https://example.org/projects.csv";
     TAGS_URL := "https://example.org/tags.csv";
     json_args := countable_codec ArgumentSet;
     json_performance := countable_codec Performance;
     csv_projects := countable_codec (list ProjectRow);
     csv_tags := countable_codec (list TagRow);
     csv_labeled := countable_codec (list LabeledRow);
     train := λ df a, Ok (trained df a);
     objective := λ a df ts k, (a, evaluate (k + 2));
     predict := λ texts artifacts, (λ _, "nlp") <$> texts;
     new_run_id := λ tr, "run" +:+ pos_to_string (Pos.of_succ_nat (size tr)) |}.

(** Two projects, both tagged. *)
Definition few_projects : list ProjectRow :=
  [ {| p_id := 1; p_cols := ["a title"] |}; {| p_id := 2; p_cols := ["another"] |} ].
Definition few_tags : list TagRow :=
  [ {| t_id := 1; t_tag := Some "nlp" |}; {| t_id := 2; t_tag := Some "mlops" |} ].

Definition few_remote : World :=
  {| web := <["https://example.org/projects.csv" :=
                dumps (Codec := countable_codec (list ProjectRow)) few_projects]>
              (<["https://example.org/tags.csv" :=
                   dumps (Codec := countable_codec (list TagRow)) few_tags]> ∅);
     fs := ∅; tracking := ∅ |}.

(** 302 tagged projects behind the urls and the argument file on the disk. *)
Definition many_projects : list ProjectRow :=
  (λ i, {| p_id := i; p_cols := ["title"] |}) <$> seqZ 0 302.
Definition many_tags : list TagRow :=
  (λ i, {| t_id := i; t_tag := Some "nlp" |}) <$> seqZ 0 302.

Definition start : World :=
  {| web := <["https://example.org/projects.csv" :=
                dumps (Codec := countable_codec (list ProjectRow)) many_projects]>
              (<["https://example.org/tags.csv" :=
                   dumps (Codec := countable_codec (list TagRow)) many_tags]> ∅);
     fs := <["config/args.json" := dumps (Codec := countable_codec ArgumentSet) base_args]> ∅;
     tracking := ∅ |}.

(** The twenty trials of the instance. *)
Definition twenty : list FrozenTrial := (λ k, freeze k (evaluate k)) <$> seq 0 20.

(** A store with one run whose vectorizer file is missing. *)
Definition incomplete_run : Run :=
  {| run_metrics := ∅; run_params := ∅;
     run_artifacts :=
       delete "artifacts/vectorizer.pkl"
         (run_artifacts (logged_run (objs:=objects) (env:=env) (trained rows base_args))) |}.

Definition incomplete : World :=
  {| web := ∅; fs := ∅; tracking := {[ "run2" := incomplete_run ]} |}.

(** Nothing anywhere. *)
Definition blank : World := {| web := ∅; fs := ∅; tracking := ∅ |}.

(** Only the projects behind their url. *)
Definition half_remote : World :=
  {| web := {[ "https://example.org/projects.csv" :=
                 dumps (Codec := countable_codec (list ProjectRow)) few_projects ]};
     fs := ∅; tracking := ∅ |}.

(** The instance with a training that raises. *)
Definition env_failing : @Env objects :=
  {| DATA_DIR := "data";
     CONFIG_DIR := "config";
     PROJECTS_URL := "https://example.org/projects.csv";
     TAGS_URL := "https://example.org/tags.csv";
     json_args := countable_codec ArgumentSet;
     json_performance := countable_codec Performance;
     csv_projects := countable_codec (list ProjectRow);
     csv_tags := countable_codec (list TagRow);
     csv_labeled := countable_codec (list LabeledRow);
     train := λ df a, Raise (TrainingError "no rows");
     objective := λ a df ts k, (a, evaluate k);
     predict := λ texts artifacts, (λ _, "nlp") <$> texts;
     new_run_id := λ tr, "run" +:+ pos_to_string (Pos.of_succ_nat (size tr)) |}.

(** The instance with an objective that reports ten steps a trial and is
    pruned by the policy: the first five trials report one half at every
    step, the later ones a quarter. *)
Definition reports (k : nat) : list Qc :=
  if (k <? 5)%nat then replicate 10 (q 1 2) else replicate 10 (q 1 4).

Definition env_reporting : @Env objects :=
  {| DATA_DIR := "data";
     CONFIG_DIR := "config";
     PROJECTS_URL := "https://example.org/projects.csv";
     TAGS_URL := "https://example.org/tags.csv";
     json_args := countable_codec ArgumentSet;
     json_performance := countable_codec Performance;
     csv_projects := countable_codec (list ProjectRow);
     csv_tags := countable_codec (list TagRow);
     csv_labeled := countable_codec (list LabeledRow);
     train := λ df a, Ok (trained df a);
     objective := reporting_objective reports (λ k, {["lr" := VFloat (q 1 10)]})
                    (λ k, q 1 2);
     predict := λ texts artifacts, (λ _, "nlp") <$> texts;
     new_run_id := λ tr, "run" +:+ pos_to_string (Pos.of_succ_nat (size tr)) |}.

(** The disk of [world] with an argument file that is not json. *)
Definition garbled : World :=
  {| web := ∅; fs := <["config/args.json" := "{"]> disk; tracking := ∅ |}.

(** The instance whose second trial returns NaN. *)
Definition env_nan : @Env objects :=
  {| DATA_DIR := "data";
     CONFIG_DIR := "config";
     PROJECTS_URL := "https://example.org/projects.csv";
     TAGS_URL := "https://example.org/tags.csv";
     json_args := countable_codec ArgumentSet;
     json_performance := countable_codec Performance;
     csv_projects := countable_codec (list ProjectRow);
     csv_tags := countable_codec (list TagRow);
     csv_labeled := countable_codec (list LabeledRow);
     train := λ df a, Ok (trained df a);
     objective := λ a df ts k,
       (a, match k with
           | 1%nat => {| sampled := {["lr" := VFloat (q 1 100)]};
                         attr_f1 := None; outcome := ReturnsInvalid |}
           | _ => evaluate k
           end);
     predict := λ texts artifacts, (λ _, "nlp") <$> texts;
     new_run_id := λ tr, "run" +:+ pos_to_string (Pos.of_succ_nat (size tr)) |}.

(** The three trials of the instance whose trials are all pruned. *)
Definition pruned3 : list FrozenTrial := (λ k, freeze k (evaluate (k + 2))) <$> seq 0 3.

End Demo.

(** * Properties *)

(** ** Paths and slices *)

Lemma Path_inj dir a b : Path dir a = Path dir b → a = b.
Proof.
  unfold Path. intros H.
  apply (inj (String.app dir)) in H.
  by apply (inj (String.app "/")) in H.
Qed.

Lemma Path_ne dir a b : a ≠ b → Path dir a ≠ Path dir b.
Proof. intros Hne H. apply Hne. by eapply Path_inj. Qed.

Lemma slice_bound_back (n : nat) (k : nat) :
  (k ≤ n)%nat → slice_bound n (- Z.of_nat k) = (n - k)%nat ∨ k = 0%nat.
Proof.
  intros Hk. unfold slice_bound.
  destruct (Z.ltb_spec (- Z.of_nat k) 0) as [Hneg|Hpos]; [left; lia | right; lia].
Qed.

Lemma slice_last_300 {A} (l : list A) :
  (300 ≤ length l)%nat →
  slice_from (-300) l = drop (length l - 300) l
  ∧ slice_to (-300) l = take (length l - 300) l.
Proof.
  intros Hlen. unfold slice_from, slice_to.
  destruct (slice_bound_back (length l) 300 Hlen) as [Hb|Hb]; [|lia].
  change (- Z.of_nat 300) with (-300) in Hb. by rewrite Hb.
Qed.

Lemma elem_of_drop_untagged (df : list LabeledRow) r :
  r ∈ drop_untagged df ↔ r ∈ df ∧ is_Some (r_tag r).
Proof.
  unfold drop_untagged. rewrite list_elem_of_filter. unfold notnull.
  destruct (r_tag r); split; intros [? Hr]; split; eauto; try done.
  all: try by destruct Hr.
Qed.

(** Unfolding a program of the monad at a world. *)
Ltac step :=
  unfold mbind, mret, M_bind, M_ret, bind, ret, raise, lift, decoded,
    read_file, write_file, fetch in *; simpl in *.

Section Properties.

Context {objs : Objects} {env : Env}.

(** C10. When the join of projects and tags on [id] has at least 300 rows
    with a tag, [elt_data] ends normally, the test file holds exactly the
    last 300 of these rows and the training file all the rows before them:
    the two files together are the labeled rows, each row in one of them. *)
Theorem elt_data_splits_last_300 (w : World) cp ct projects tags :
  web w !! PROJECTS_URL = Some cp → loads cp = Some projects →
  web w !! TAGS_URL = Some ct → loads ct = Some tags →
  let df := drop_untagged (pd_merge projects tags) in
  (300 ≤ length df)%nat →
  ∃ w', elt_data w = (Ok tt, w')
    ∧ let train_df := take (length df - 300) df in
      let test_df := drop (length df - 300) df in
      fs w' !! Path DATA_DIR "test_labeled_projects.csv" = Some (dumps test_df)
      ∧ fs w' !! Path DATA_DIR "labeled_projects.csv" = Some (dumps train_df)
      ∧ length test_df = 300%nat
      ∧ train_df ++ test_df = df
      ∧ (∀ r, r ∈ df ↔ r ∈ pd_merge projects tags ∧ is_Some (r_tag r)).
Proof.
  intros Hp Hlp Ht Hlt df Hlen.
  destruct (slice_last_300 df Hlen) as [Hfrom Hto].
  eexists. split.
  - unfold elt_data. step. rewrite Hp, Hlp. simpl. rewrite Ht, Hlt. simpl.
    reflexivity.
  - simpl. fold df. rewrite Hfrom, Hto.
    split; [by rewrite lookup_insert_eq|].
    split.
    { rewrite lookup_insert_ne by (by apply Path_ne).
      by rewrite lookup_insert_eq. }
    split; [rewrite length_drop; lia|].
    split; [apply take_drop|].
    intros r. apply elem_of_drop_untagged.
Qed.

#[local] Abbreviation pointer := (Path CONFIG_DIR "run_id.txt").
#[local] Abbreviation snapshot := (Path CONFIG_DIR "performance.json").
#[local] Abbreviation labeled := (Path DATA_DIR "labeled_projects.csv").

(** ** [train_model] *)

(** The world after a training run that went through. *)
Lemma train_model_Ok (w : World) args_fp experiment_name run_name test_run c df a ns A :
  fs w !! labeled = Some c → loads c = Some df →
  fs w !! args_fp = Some a → loads a = Some ns →
  train df ns = Ok A →
  train_model args_fp experiment_name run_name test_run w =
    (Ok tt,
     {| web := web w;
        fs := if test_run then fs w
              else <[snapshot := dumps (performance A)]>
                     (<[pointer := new_run_id (tracking w)]> (fs w));
        tracking := <[new_run_id (tracking w) := logged_run A]> (tracking w) |}).
Proof.
  intros Hc Hdf Ha Hns HA.
  unfold train_model, read_labeled, load_dict, start_run, log_metric,
    log_params, log_artifacts, log_model.
  step. rewrite Hc, Hdf. simpl. rewrite Ha, Hns. simpl. rewrite HA. simpl.
  unfold set_tracking, set_fs; simpl.
  rewrite !alter_insert_eq.
  destruct test_run; simpl; reflexivity.
Qed.

(** A training run that raises leaves the files as they were. *)
Lemma train_model_cases (w : World) args_fp experiment_name run_name test_run :
  (∃ e w', train_model args_fp experiment_name run_name test_run w = (Raise e, w')
           ∧ fs w' = fs w)
  ∨ (∃ c df a ns A,
       fs w !! labeled = Some c ∧ loads c = Some df
       ∧ fs w !! args_fp = Some a ∧ loads a = Some ns
       ∧ train df ns = Ok A).
Proof.
  destruct (fs w !! labeled) as [c|] eqn:Hc; cycle 1.
  { left. unfold train_model, read_labeled. step. rewrite Hc. eauto. }
  destruct (loads (A:=list LabeledRow) c) as [df|] eqn:Hdf; cycle 1.
  { left. unfold train_model, read_labeled. step. rewrite Hc, Hdf. eauto. }
  destruct (fs w !! args_fp) as [a|] eqn:Ha; cycle 1.
  { left. unfold train_model, read_labeled, load_dict. step.
    rewrite Hc, Hdf. simpl. rewrite Ha. eauto. }
  destruct (loads (A:=ArgumentSet) a) as [ns|] eqn:Hns; cycle 1.
  { left. unfold train_model, read_labeled, load_dict. step.
    rewrite Hc, Hdf. simpl. rewrite Ha, Hns. eauto. }
  destruct (train df ns) as [A|e] eqn:HA; cycle 1.
  { left. unfold train_model, read_labeled, load_dict, start_run. step.
    rewrite Hc, Hdf. simpl. rewrite Ha, Hns. simpl. rewrite HA. simpl. eauto. }
  right. eauto 10.
Qed.

(** ** [load_artifacts] *)

Lemma staged_load_Ok {A} `{Codec A} dp err rel (x : A) :
  staged_load dp err rel = Ok x ↔ holds dp rel x.
Proof.
  unfold staged_load, holds. split.
  - destruct (dp !! rel) as [c|]; [|done].
    destruct (loads c) as [y|] eqn:Hy; [|done].
    intros [= ->]. eauto.
  - intros (c & -> & ->). done.
Qed.

Lemma staged_load_Raise {A} `{Codec A} dp err rel e :
  staged_load (A:=A) dp err rel = Raise e →
  ¬ loadable A dp rel
  ∧ (e = FileNotFoundError (Staged rel) ∨ e = err (Staged rel)).
Proof.
  unfold staged_load, loadable.
  destruct (dp !! rel) as [c|] eqn:Hc.
  - destruct (loads c) as [y|] eqn:Hy; [done|].
    intros [= <-]. split; [|by right].
    intros (c' & x & [= <-] & Hx). congruence.
  - intros [= <-]. split; [|by left].
    intros (c' & x & [=] & _).
Qed.

Lemma read_bundle_Ok dp B :
  read_bundle dp = Ok B ↔
    holds dp "artifacts/args.json" (args B)
    ∧ holds dp "artifacts/label_encoder.json" (label_encoder B)
    ∧ holds dp "artifacts/vectorizer.pkl" (vectorizer B)
    ∧ holds dp "artifacts/performance.json" (performance B)
    ∧ holds dp "model/model.pkl" (model B).
Proof.
  unfold read_bundle. split.
  - destruct (staged_load dp JSONDecodeError "artifacts/args.json") as [a|] eqn:Ha; [|done].
    destruct (staged_load dp UnpicklingError "artifacts/vectorizer.pkl") as [v|] eqn:Hv; [|done].
    destruct (staged_load dp JSONDecodeError "artifacts/label_encoder.json") as [l|] eqn:Hl; [|done].
    destruct (staged_load dp JSONDecodeError "artifacts/performance.json") as [p|] eqn:Hp; [|done].
    destruct (staged_load dp UnpicklingError "model/model.pkl") as [m|] eqn:Hm; [|done].
    intros [= <-]. simpl.
    apply staged_load_Ok in Ha, Hv, Hl, Hp, Hm. done.
  - intros (Ha & Hl & Hv & Hp & Hm).
    apply (staged_load_Ok dp JSONDecodeError) in Ha, Hl, Hp.
    apply (staged_load_Ok dp UnpicklingError) in Hv, Hm.
    rewrite Ha, Hv, Hl, Hp, Hm. by destruct B.
Qed.

Lemma read_bundle_intact dp : intact dp ↔ ∃ B, read_bundle dp = Ok B.
Proof.
  split.
  - intros ((ca & a & Ha) & (cl & l & Hl) & (cv & v & Hv) & (cp & p & Hp) & (cm & m & Hm)).
    exists {| args := a; label_encoder := l; vectorizer := v; model := m; performance := p |}.
    apply read_bundle_Ok. unfold holds. simpl. eauto 10.
  - intros [B HB]. apply read_bundle_Ok in HB as (Ha & Hl & Hv & Hp & Hm).
    destruct Ha as (? & ? & ?), Hl as (? & ? & ?), Hv as (? & ? & ?),
      Hp as (? & ? & ?), Hm as (? & ? & ?).
    unfold intact, loadable.
    repeat split; do 2 eexists; split; eassumption.
Qed.

Lemma resolve_explicit (w : World) run_id :
  run_id ≠ "" → resolve (Some run_id) w = (Ok run_id, w).
Proof.
  intros Hne. unfold resolve, falsy. by rewrite bool_decide_eq_false_2.
Qed.

Lemma load_artifacts_explicit (w : World) run_id :
  run_id ≠ "" → load_artifacts (Some run_id) w = fetch_bundle run_id w.
Proof.
  intros Hne. unfold load_artifacts. step. by rewrite resolve_explicit.
Qed.

Lemma fetch_bundle_stored (w : World) run_id r :
  tracking w !! run_id = Some r →
  fetch_bundle run_id w = (read_bundle (run_artifacts r), w).
Proof.
  intros Hr. unfold fetch_bundle, download_artifacts. step. rewrite Hr.
  by destruct (read_bundle (run_artifacts r)).
Qed.

Lemma read_bundle_logged_run A : read_bundle (run_artifacts (logged_run A)) = Ok A.
Proof.
  apply read_bundle_Ok. unfold holds, logged_run. simpl.
  repeat split; eexists; (split; [|apply loads_dumps]).
  all: repeat (rewrite lookup_insert_ne by done); by rewrite lookup_insert_eq.
Qed.

(** C2. A training run that goes through, followed by [load_artifacts]
    with the identifier of that run, gives back the artifacts that were
    stored: the same [args] and [performance], and all five members, each
    of them stored and loadable. *)
Theorem train_then_load_round_trip (w : World) args_fp experiment_name run_name
    test_run c df a ns A :
  fs w !! labeled = Some c → loads c = Some df →
  fs w !! args_fp = Some a → loads a = Some ns →
  train df ns = Ok A →
  new_run_id (tracking w) ≠ "" →
  ∃ w' B r,
    train_model args_fp experiment_name run_name test_run w = (Ok tt, w')
    ∧ load_artifacts (Some (new_run_id (tracking w))) w' = (Ok B, w')
    ∧ args B = args A ∧ performance B = performance A ∧ B = A
    ∧ tracking w' !! new_run_id (tracking w) = Some r
    ∧ intact (run_artifacts r).
Proof.
  intros Hc Hdf Ha Hns HA Hid.
  eexists _, A, (logged_run A).
  split; [by eapply train_model_Ok|].
  assert (Hr : ∀ f, tracking {| web := web w; fs := f;
              tracking := <[new_run_id (tracking w) := logged_run A]> (tracking w) |}
            !! new_run_id (tracking w) = Some (logged_run A))
    by (intros; apply lookup_insert_eq).
  split.
  { rewrite load_artifacts_explicit by done.
    erewrite fetch_bundle_stored by apply Hr.
    by rewrite read_bundle_logged_run. }
  do 3 (split; [done|]).
  split; [apply Hr|].
  apply read_bundle_intact. eexists. apply read_bundle_logged_run.
Qed.

Lemma staged_load_Raise_lookup {A} `{Codec A} dp err rel e :
  staged_load (A:=A) dp err rel = Raise e →
  (dp !! rel = None ∧ e = FileNotFoundError (Staged rel))
  ∨ (is_Some (dp !! rel) ∧ e = err (Staged rel)).
Proof.
  unfold staged_load. destruct (dp !! rel) as [c|].
  - destruct (loads c); [done|]. intros [= <-]. right. eauto.
  - intros [= <-]. by left.
Qed.

(** The exception of a bundle that cannot be read names one of the five
    files. *)
Lemma read_bundle_Raise_member dp e :
  read_bundle dp = Raise e →
  ∃ rel, rel ∈ reading_order
    ∧ ((dp !! rel = None ∧ e = FileNotFoundError (Staged rel))
       ∨ (is_Some (dp !! rel)
          ∧ (e = JSONDecodeError (Staged rel) ∨ e = UnpicklingError (Staged rel)))).
Proof.
  unfold read_bundle, reading_order.
  destruct (staged_load dp JSONDecodeError "artifacts/args.json") as [a|] eqn:Ha.
  2:{ intros [= <-]. exists "artifacts/args.json". split; [set_solver|].
      apply staged_load_Raise_lookup in Ha as [[? ->]|[? ->]]; eauto. }
  destruct (staged_load dp UnpicklingError "artifacts/vectorizer.pkl") as [v|] eqn:Hv.
  2:{ intros [= <-]. exists "artifacts/vectorizer.pkl". split; [set_solver|].
      apply staged_load_Raise_lookup in Hv as [[? ->]|[? ->]]; eauto. }
  destruct (staged_load dp JSONDecodeError "artifacts/label_encoder.json") as [l|] eqn:Hl.
  2:{ intros [= <-]. exists "artifacts/label_encoder.json". split; [set_solver|].
      apply staged_load_Raise_lookup in Hl as [[? ->]|[? ->]]; eauto. }
  destruct (staged_load dp JSONDecodeError "artifacts/performance.json") as [p|] eqn:Hp.
  2:{ intros [= <-]. exists "artifacts/performance.json". split; [set_solver|].
      apply staged_load_Raise_lookup in Hp as [[? ->]|[? ->]]; eauto. }
  destruct (staged_load dp UnpicklingError "model/model.pkl") as [m|] eqn:Hm.
  2:{ intros [= <-]. exists "model/model.pkl". split; [set_solver|].
      apply staged_load_Raise_lookup in Hm as [[? ->]|[? ->]]; eauto. }
  done.
Qed.

(** C3. When a member of the stored bundle of a run is missing or does
    not load, [load_artifacts] raises and returns no bundle.  The exception
    is the one of the read that failed, for one of the five files:
    [FileNotFoundError] for a file that is missing, the exception of the
    loader for a file that is there and does not load.  No exception of a
    class of its own for corrupt artifacts is raised: the code has none. *)
Theorem load_bad_bundle_raises (w : World) run_id r :
  run_id ≠ "" →
  tracking w !! run_id = Some r →
  ¬ intact (run_artifacts r) →
  ∃ e rel,
    load_artifacts (Some run_id) w = (Raise e, w)
    ∧ rel ∈ reading_order
    ∧ ((run_artifacts r !! rel = None ∧ e = FileNotFoundError (Staged rel))
       ∨ (is_Some (run_artifacts r !! rel)
          ∧ (e = JSONDecodeError (Staged rel) ∨ e = UnpicklingError (Staged rel))))
    ∧ py_class e ≠ "CorruptArtifactError"
    ∧ ∀ B w', load_artifacts (Some run_id) w ≠ (Ok B, w').
Proof.
  intros Hid Hr Hbad.
  rewrite load_artifacts_explicit by done.
  rewrite (fetch_bundle_stored _ _ _ Hr).
  destruct (read_bundle (run_artifacts r)) as [B|e] eqn:HB.
  - destruct Hbad. apply read_bundle_intact. eauto.
  - destruct (read_bundle_Raise_member _ _ HB) as (rel & Hrel & Hcase).
    exists e, rel. split; [done|]. split; [done|]. split; [done|].
    split; [|done].
    destruct Hcase as [[_ ->]|[_ [-> | ->]]]; discriminate.
Qed.

(** C4. With no identifier given and no pointer file, [load_artifacts]
    raises the exception of the missing pointer file, in the class of
    unresolved runs; it returns no bundle. *)
Theorem load_without_pointer_raises (w : World) run_id :
  falsy run_id = true →
  fs w !! pointer = None →
  load_artifacts run_id w = (Raise (FileNotFoundError (Disk pointer)), w)
  ∧ error_class (FileNotFoundError (Disk pointer)) = Some NotFoundError.
Proof.
  intros Hf Hp. split.
  - unfold load_artifacts, resolve. rewrite Hf. step. by rewrite Hp.
  - unfold error_class. by rewrite bool_decide_eq_true_2.
Qed.

(** C7. A test run of [train_model] leaves every file as it was, the
    pointer file and the performance snapshot among them, however it ends.
    A run that is not a test run and goes through sets the pointer file to
    the new identifier and the snapshot to the report of the run and leaves
    the other files; one that raises leaves every file.  Creating the run
    in the tracking store writes no file.  With the data and the argument
    file readable and a training that goes through, both kinds of run go
    through and store the run, and only the one that is not a test run
    writes the two files. *)
Theorem train_model_pointer_frame (w : World) args_fp experiment_name run_name :
  fs (train_model args_fp experiment_name run_name true w).2 = fs w
  ∧ (let out := train_model args_fp experiment_name run_name false w in
     match out.1 with
     | Ok _ =>
         ∃ A, tracking out.2 !! new_run_id (tracking w) = Some (logged_run A)
              ∧ fs out.2 !! pointer = Some (new_run_id (tracking w))
              ∧ fs out.2 !! snapshot = Some (dumps (performance A))
              ∧ fs out.2 = <[snapshot := dumps (performance A)]>
                             (<[pointer := new_run_id (tracking w)]> (fs w))
     | Raise _ => fs out.2 = fs w
     end)
  ∧ fs (start_run w).2 = fs w
  ∧ (∀ c df a ns A,
       fs w !! labeled = Some c → loads c = Some df →
       fs w !! args_fp = Some a → loads a = Some ns →
       train df ns = Ok A →
       (train_model args_fp experiment_name run_name true w).1 = Ok tt
       ∧ tracking (train_model args_fp experiment_name run_name true w).2
           !! new_run_id (tracking w) = Some (logged_run A)
       ∧ fs (train_model args_fp experiment_name run_name true w).2 !! pointer
           = fs w !! pointer
       ∧ fs (train_model args_fp experiment_name run_name true w).2 !! snapshot
           = fs w !! snapshot
       ∧ (train_model args_fp experiment_name run_name false w).1 = Ok tt
       ∧ tracking (train_model args_fp experiment_name run_name false w).2
           !! new_run_id (tracking w) = Some (logged_run A)
       ∧ fs (train_model args_fp experiment_name run_name false w).2 !! pointer
           = Some (new_run_id (tracking w))
       ∧ fs (train_model args_fp experiment_name run_name false w).2 !! snapshot
           = Some (dumps (performance A))
       ∧ ∀ p, p ≠ pointer → p ≠ snapshot →
           fs (train_model args_fp experiment_name run_name false w).2 !! p = fs w !! p).
Proof.
  split; [|split; [|split; [done|]]].
  - destruct (train_model_cases w args_fp experiment_name run_name true)
      as [(e & w' & -> & Hfs)|(c & df & a & ns & A & Hc & Hdf & Ha & Hns & HA)]; [done|].
    by erewrite train_model_Ok.
  - destruct (train_model_cases w args_fp experiment_name run_name false)
      as [(e & w' & -> & Hfs)|(c & df & a & ns & A & Hc & Hdf & Ha & Hns & HA)]; [done|].
    erewrite train_model_Ok by done. simpl.
    exists A.
    split; [apply lookup_insert_eq|].
    split.
    { rewrite lookup_insert_ne by (by apply Path_ne). apply lookup_insert_eq. }
    split; [apply lookup_insert_eq|done].
  - intros c df a ns A Hc Hdf Ha Hns HA.
    rewrite (train_model_Ok w args_fp experiment_name run_name true c df a ns A)
      by done.
    rewrite (train_model_Ok w args_fp experiment_name run_name false c df a ns A)
      by done.
    simpl.
    split; [done|]. split; [apply lookup_insert_eq|].
    split; [done|]. split; [done|]. split; [done|].
    split; [apply lookup_insert_eq|].
    split.
    { rewrite lookup_insert_ne by (by apply Path_ne). apply lookup_insert_eq. }
    split; [apply lookup_insert_eq|].
    intros p Hp Hs. by rewrite !lookup_insert_ne.
Qed.

(** C8. A training run stores the pickled model as [model/model.pkl] and
    the four other members under [artifacts/], where no model file is;
    [load_artifacts] reads all five, so it needs both directories: with
    the model file or any file of [artifacts/] taken away, reading the
    bundle raises for that file. *)
Theorem model_stored_apart (w : World) args_fp experiment_name run_name
    test_run c df a ns A :
  fs w !! labeled = Some c → loads c = Some df →
  fs w !! args_fp = Some a → loads a = Some ns →
  train df ns = Ok A →
  ∃ w' r,
    train_model args_fp experiment_name run_name test_run w = (Ok tt, w')
    ∧ tracking w' !! new_run_id (tracking w) = Some r
    ∧ run_artifacts r !! Path "model" "model.pkl" = Some (dumps (model A))
    ∧ run_artifacts r !! Path "artifacts" "args.json" = Some (dumps (args A))
    ∧ run_artifacts r !! Path "artifacts" "label_encoder.json"
        = Some (dumps (label_encoder A))
    ∧ run_artifacts r !! Path "artifacts" "vectorizer.pkl"
        = Some (dumps (vectorizer A))
    ∧ run_artifacts r !! Path "artifacts" "performance.json"
        = Some (dumps (performance A))
    ∧ run_artifacts r !! Path "artifacts" "model.pkl" = None
    ∧ (∀ name, Path "artifacts" name ≠ Path "model" "model.pkl")
    ∧ read_bundle (run_artifacts r) = Ok A
    ∧ read_bundle (delete (Path "model" "model.pkl") (run_artifacts r))
        = Raise (FileNotFoundError (Staged (Path "model" "model.pkl")))
    ∧ Forall (λ name,
        read_bundle (delete (Path "artifacts" name) (run_artifacts r))
        = Raise (FileNotFoundError (Staged (Path "artifacts" name))))
        ["args.json"; "label_encoder.json"; "vectorizer.pkl"; "performance.json"].
Proof.
  intros Hc Hdf Ha Hns HA.
  eexists _, (logged_run A).
  split; [by eapply train_model_Ok|].
  split; [apply lookup_insert_eq|].
  change (Path "model" "model.pkl") with "model/model.pkl".
  change (Path "artifacts" "args.json") with "artifacts/args.json".
  change (Path "artifacts" "label_encoder.json") with "artifacts/label_encoder.json".
  change (Path "artifacts" "vectorizer.pkl") with "artifacts/vectorizer.pkl".
  change (Path "artifacts" "performance.json") with "artifacts/performance.json".
  unfold logged_run; simpl.
  repeat (split; [repeat (rewrite lookup_insert_ne by done); by rewrite lookup_insert_eq|]).
  split; [done|].
  split; [intros name [=]|].
  split; [apply read_bundle_logged_run|].
  assert (Hl : ∀ X (C : Codec X) (x : X), loads (dumps x) = Some x)
    by (intros; apply loads_dumps).
  split.
  { unfold read_bundle, staged_load.
    repeat (rewrite ?lookup_delete_eq, ?lookup_delete_ne, ?lookup_insert_eq,
              ?lookup_insert_ne, ?Hl by done; simpl).
    done. }
  repeat constructor.
  all: change (Path "artifacts" ?n) with ("artifacts/" +:+ n); simpl.
  all: unfold read_bundle, staged_load.
  all: repeat (rewrite ?lookup_delete_eq, ?lookup_delete_ne, ?lookup_insert_eq,
              ?lookup_insert_ne, ?Hl by done; simpl).
  all: done.
Qed.

(** C9. [None] and the empty string are both falsy: with either of them
    [load_artifacts] and [predict_tag] read the pointer file and look up
    the identifier it holds; the empty string given as argument is no
    identifier of its own. *)
Theorem falsy_run_id_reads_pointer (w : World) (text : string) :
  falsy None = true ∧ falsy (Some "") = true
  ∧ load_artifacts (Some "") w = load_artifacts None w
  ∧ predict_tag text (Some "") w = predict_tag text None w
  ∧ match fs w !! pointer with
    | None =>
        load_artifacts None w = (Raise (FileNotFoundError (Disk pointer)), w)
        ∧ predict_tag text None w = (Raise (FileNotFoundError (Disk pointer)), w)
    | Some p =>
        load_artifacts None w = fetch_bundle p w
        ∧ predict_tag text None w
          = (artifacts ← fetch_bundle p; mret (predict [text] artifacts)) w
    end.
Proof.
  split; [done|]. split; [done|]. split; [done|]. split; [done|].
  unfold predict_tag, load_artifacts, resolve. simpl.
  destruct (fs w !! pointer) as [p|] eqn:Hp; step; rewrite Hp; [|done].
  split; [done|].
  destruct (bool_decide (p = "")) eqn:Hd; simpl; [|done].
  apply bool_decide_eq_true in Hd as ->. by rewrite Hp.
Qed.

(** ** [optimize] *)





Lemma bind_Ok {A B} (m : M A) (k : A → M B) (w w' : World) a :
  m w = (Ok a, w') → (m ≫= k) w = k a w'.
Proof. intros Hm. unfold mbind, M_bind, bind. by rewrite Hm. Qed.

Lemma mlflow_callback_Ok (t : FrozenTrial) (w : World) :
  ∃ w', mlflow_callback t w = (Ok tt, w') ∧ fs w' = fs w ∧ web w' = web w.
Proof.
  unfold mlflow_callback, start_run, log_params, log_metric. step.
  destruct (value t); simpl; eauto.
Qed.


Lemma numbered_freeze (trials : list FrozenTrial) ev :
  numbered trials → numbered (trials ++ [freeze (length trials) ev]).
Proof.
  intros Hn i t Hi. apply lookup_app_Some in Hi as [Hi|[Hge Hi]]; [by apply Hn|].
  apply list_lookup_singleton_Some in Hi as [Hi <-]. simpl.
  split; [lia|]. destruct (outcome ev); eauto; done.
Qed.

(** The study keeps the trials numbered and touches no file; with
    [n_trials] at zero it runs no trial. *)
Lemma study_optimize_inv df n ns (trials : list FrozenTrial) (w : World) :
  fs (study_optimize df n ns trials w).2 = fs w
  ∧ match (study_optimize df n ns trials w).1 with
    | Ok study =>
        (numbered trials → numbered study.2)
        ∧ ((∀ a d ts k, (objective a d ts k).1 = a) → study.1 = ns)
    | Raise _ => True
    end.
Proof.
  revert ns trials w. induction n as [|n IH]; intros ns trials w.
  { done. }
  cbn [study_optimize].
  destruct (mlflow_callback_Ok
         (freeze (length trials) (objective ns df trials (length trials)).2) w)
         as (w' & Hcb & Hfs & _).
  destruct (IH (objective ns df trials (length trials)).1
               (trials ++ [freeze (length trials)
                             (objective ns df trials (length trials)).2]) w')
         as [IHfs IHst].
  destruct (outcome (objective ns df trials (length trials)).2) eqn:Hout.
  3:{ done. }
  all: rewrite (bind_Ok _ _ _ _ _ Hcb).
  all: split; [by rewrite IHfs|].
  all: destruct (study_optimize _ _ _ _ _).1 as [study|]; [|done].
  all: destruct IHst as [IHn IHa]; split;
         [intros; by apply IHn, numbered_freeze
         |intros Hpure; by rewrite IHa, Hpure].
Qed.

(** Every trial of a study that ran to its end is the record of a call of
    the objective with the trials before it; a study that raises does so
    with the exception of such a call. *)
Lemma study_optimize_trace df n ns (trials : list FrozenTrial) (w : World) :
  match (study_optimize df n ns trials w).1 with
  | Ok study =>
      ∃ new, study.2 = trials ++ new ∧ length new = n
        ∧ ∀ j t, new !! j = Some t →
            ∃ a, t = freeze (length trials + j)
                       (objective a df (take (length trials + j) study.2)
                          (length trials + j)).2
                 ∧ ∀ e, outcome (objective a df (take (length trials + j) study.2)
                                   (length trials + j)).2 ≠ Raises e
  | Raise e =>
      ∃ a ts, (length ts < length trials + n)%nat
              ∧ outcome (objective a df ts (length ts)).2 = Raises e
  end.
Proof.
  revert ns trials w. induction n as [|n IH]; intros ns trials w.
  { simpl. exists []. rewrite app_nil_r. split; [done|]. split; [done|].
    intros j t Hj. by rewrite lookup_nil in Hj. }
  cbn [study_optimize].
  destruct (mlflow_callback_Ok
         (freeze (length trials) (objective ns df trials (length trials)).2) w)
         as (w' & Hcb & _ & _).
  specialize (IH (objective ns df trials (length trials)).1
               (trials ++ [freeze (length trials)
                             (objective ns df trials (length trials)).2]) w').
  rewrite length_app in IH. simpl in IH.
  destruct (outcome (objective ns df trials (length trials)).2) eqn:Hout.
  3:{ simpl. exists ns, trials. split; [lia|done]. }
  all: rewrite (bind_Ok _ _ _ _ _ Hcb).
  all: destruct (study_optimize _ _ _ _ _).1 as [study|e'];
         [|destruct IH as (a' & ts & Hlt & Hts); exists a', ts; split; [lia|done]].
  all: destruct IH as (new & Hstudy & Hlen & Hnew).
  all: exists (freeze (length trials) (objective ns df trials (length trials)).2 :: new).
  all: split; [by rewrite Hstudy, <- app_assoc|].
  all: split; [simpl; lia|].
  all: intros [|j] t Hj; simpl in Hj.
  all: try (injection Hj as <-; exists ns; rewrite Nat.add_0_r, Hstudy, <- app_assoc;
            rewrite take_app_length; split; [done|by rewrite Hout]).
  all: destruct (Hnew j t Hj) as (a & Ha); exists a.
  all: by replace (length trials + S j)%nat with (length trials + 1 + j)%nat by lia.
Qed.


(** ** The pruning policy in the study *)





(** C6. [optimize] does not look at [num_trials] before it starts: with
    zero or less, and the data and the argument file readable, the study
    runs no trial, the lookup of the [f1] column of the empty frame raises
    [KeyError], and nothing is written.  The exception is in none of the
    classes of the design. *)
Theorem optimize_without_trials_raises_KeyError (w : World) args_fp study_name
    num_trials c df a ns :
  num_trials ≤ 0 →
  fs w !! labeled = Some c → loads c = Some df →
  fs w !! args_fp = Some a → loads a = Some ns →
  study_optimize df (Z.to_nat num_trials) ns [] w = (Ok (ns, []), w)
  ∧ optimize args_fp study_name num_trials w = (Raise (KeyError "user_attrs_f1"), w)
  ∧ error_class (KeyError "user_attrs_f1") = None.
Proof.
  intros Hle Hc Hdf Ha Hns.
  assert (Z.to_nat num_trials = 0%nat) as Hz by lia.
  split; [by rewrite Hz|]. split; [|done].
  unfold optimize, read_labeled, load_dict. step.
  rewrite Hc, Hdf. simpl. rewrite Ha, Hns. simpl. by rewrite Hz.
Qed.

End Properties.


(** ** The properties on the concrete instance *)

Section Instance.

Import Demo.

Lemma elt_data_splits_last_300_demo :
  let df := drop_untagged (pd_merge projects tags) in
  (300 ≤ length df)%nat
  ∧ ∃ w', elt_data (env:=env) remote = (Ok tt, w')
      ∧ fs w' !! "data/test_labeled_projects.csv"
          = Some (dumps (Codec:=countable_codec (list LabeledRow))
                    (drop (length df - 300) df))
      ∧ fs w' !! "data/labeled_projects.csv"
          = Some (dumps (Codec:=countable_codec (list LabeledRow))
                    (take (length df - 300) df))
      ∧ length (drop (length df - 300) df) = 300%nat.
Proof.
  intros df.
  assert (Hlen : (300 ≤ length df)%nat) by (vm_compute; lia).
  split; [exact Hlen|].
  destruct (elt_data_splits_last_300 (env:=env) remote
              (dumps (Codec:=countable_codec (list ProjectRow)) projects)
              (dumps (Codec:=countable_codec (list TagRow)) tags)
              projects tags)
    as (w' & Hrun & Htest & Htrain & Hn & _).
  - reflexivity.
  - apply countable_loads_dumps.
  - reflexivity.
  - apply countable_loads_dumps.
  - exact Hlen.
  - exists w'. repeat split; assumption.
Defined.

Lemma train_then_load_round_trip_demo :
  new_run_id (Env:=env) (tracking world) ≠ ""
  ∧ ∃ w' B r,
      train_model (env:=env) "config/args.json" "baselines" "sgd" false world = (Ok tt, w')
      ∧ load_artifacts (env:=env) (Some (new_run_id (Env:=env) (tracking world))) w'
          = (Ok B, w')
      ∧ args B = args (trained rows base_args)
      ∧ performance B = report
      ∧ B = trained rows base_args
      ∧ tracking w' !! new_run_id (Env:=env) (tracking world) = Some r
      ∧ intact (env:=env) (run_artifacts r).
Proof.
  assert (Hid : new_run_id (Env:=env) (tracking world) ≠ "") by (vm_compute; discriminate).
  split; [exact Hid|].
  apply (train_then_load_round_trip (env:=env) world "config/args.json" "baselines" "sgd"
           false (dumps (Codec:=countable_codec (list LabeledRow)) rows) rows
           (dumps (Codec:=countable_codec ArgumentSet) base_args) base_args
           (trained rows base_args)).
  - reflexivity.
  - apply countable_loads_dumps.
  - reflexivity.
  - apply countable_loads_dumps.
  - reflexivity.
  - exact Hid.
Defined.

Lemma corrupted_run_not_intact : ¬ intact (env:=env) (run_artifacts corrupted_run).
Proof.
  intros (_ & _ & (c & x & Hc & Hx) & _).
  unfold corrupted_run in Hc. simpl in Hc.
  rewrite lookup_insert_eq in Hc. injection Hc as <-.
  vm_compute in Hx. discriminate.
Qed.

Lemma load_without_pointer_raises_demo :
  fs world !! "config/run_id.txt" = None
  ∧ load_artifacts (env:=env) None world
      = (Raise (FileNotFoundError (Disk "config/run_id.txt")), world)
  ∧ error_class (env:=env) (FileNotFoundError (Disk "config/run_id.txt"))
      = Some NotFoundError.
Proof.
  split; [reflexivity|].
  apply (load_without_pointer_raises (env:=env) world None); reflexivity.
Defined.

Lemma model_stored_apart_demo :
  ∃ w' r,
    train_model (env:=env) "config/args.json" "baselines" "sgd" true world = (Ok tt, w')
    ∧ tracking w' !! new_run_id (Env:=env) (tracking world) = Some r
    ∧ run_artifacts r !! "artifacts/model.pkl" = None
    ∧ read_bundle (env:=env) (run_artifacts r) = Ok (trained rows base_args)
    ∧ read_bundle (env:=env) (delete "model/model.pkl" (run_artifacts r))
        = Raise (FileNotFoundError (Staged "model/model.pkl")).
Proof.
  destruct (model_stored_apart (env:=env) world "config/args.json" "baselines" "sgd"
           true (dumps (Codec:=countable_codec (list LabeledRow)) rows) rows
           (dumps (Codec:=countable_codec ArgumentSet) base_args) base_args
           (trained rows base_args))
    as (w' & r & Hrun & Hr & _ & _ & _ & _ & _ & Hdom & _ & Hread & Hmodel & _).
  - reflexivity.
  - apply countable_loads_dumps.
  - reflexivity.
  - apply countable_loads_dumps.
  - reflexivity.
  - exists w', r. repeat split; assumption.
Defined.

Lemma optimize_without_trials_raises_KeyError_demo :
  study_optimize (env:=env) rows (Z.to_nat 0) base_args [] world = (Ok (base_args, []), world)
  ∧ optimize (env:=env) "config/args.json" "optimization" 0 world
      = (Raise (KeyError "user_attrs_f1"), world)
  ∧ error_class (env:=env) (KeyError "user_attrs_f1") = None.
Proof.
  apply (optimize_without_trials_raises_KeyError (env:=env) world "config/args.json"
           "optimization" 0
           (dumps (Codec:=countable_codec (list LabeledRow)) rows) rows
           (dumps (Codec:=countable_codec ArgumentSet) base_args) base_args).
  - lia.
  - reflexivity.
  - apply countable_loads_dumps.
  - reflexivity.
  - apply countable_loads_dumps.
Defined.

(** The claim C6 as it is written fails here: with no trial asked for,
    [optimize] raises [KeyError], not an error of configuration, and so it
    does for a negative number. *)
Lemma optimize_zero_trials_not_rejected :
  (optimize (env:=env) "config/args.json" "optimization" 0 world).1
    = Raise (KeyError "user_attrs_f1")
  ∧ (optimize (env:=env) "config/args.json" "optimization" (-3) world).1
    = Raise (KeyError "user_attrs_f1")
  ∧ error_class (env:=env) (KeyError "user_attrs_f1") ≠ Some ConfigurationError.
Proof. split; [reflexivity|]. split; [reflexivity|]. discriminate. Qed.



Lemma load_bad_bundle_raises_demo :
  ∃ e rel,
    load_artifacts (env:=env) (Some "run1") corrupted = (Raise e, corrupted)
    ∧ rel ∈ reading_order
    ∧ ((run_artifacts corrupted_run !! rel = None ∧ e = FileNotFoundError (Staged rel))
       ∨ (is_Some (run_artifacts corrupted_run !! rel)
          ∧ (e = JSONDecodeError (Staged rel) ∨ e = UnpicklingError (Staged rel))))
    ∧ py_class e ≠ "CorruptArtifactError"
    ∧ ∀ B w', load_artifacts (env:=env) (Some "run1") corrupted ≠ (Ok B, w').
Proof.
  apply (load_bad_bundle_raises (env:=env) corrupted "run1" corrupted_run).
  - discriminate.
  - reflexivity.
  - exact corrupted_run_not_intact.
Defined.

Lemma incomplete_run_not_intact : ¬ intact (env:=env) (run_artifacts incomplete_run).
Proof.
  intros (_ & _ & (c & x & Hc & Hx) & _).
  unfold incomplete_run in Hc. simpl in Hc.
  by rewrite lookup_delete_eq in Hc.
Qed.

(** The claim C3 as it is written fails here.  A run whose vectorizer file
    is not a pickle makes [load_artifacts] raise the exception of the
    loader; a run whose vectorizer file is missing makes it raise
    [FileNotFoundError], the class it also raises when the pointer file is
    missing.  Neither is an exception named CorruptArtifactError. *)
Lemma load_bad_bundle_not_CorruptArtifactError :
  ¬ intact (env:=env) (run_artifacts corrupted_run)
  ∧ load_artifacts (env:=env) (Some "run1") corrupted
    = (Raise (UnpicklingError (Staged "artifacts/vectorizer.pkl")), corrupted)
  ∧ py_class (UnpicklingError (Staged "artifacts/vectorizer.pkl")) ≠ "CorruptArtifactError"
  ∧ ¬ intact (env:=env) (run_artifacts incomplete_run)
  ∧ load_artifacts (env:=env) (Some "run2") incomplete
    = (Raise (FileNotFoundError (Staged "artifacts/vectorizer.pkl")), incomplete)
  ∧ py_class (FileNotFoundError (Staged "artifacts/vectorizer.pkl")) ≠ "CorruptArtifactError"
  ∧ load_artifacts (env:=env) None world
    = (Raise (FileNotFoundError (Disk "config/run_id.txt")), world)
  ∧ py_class (FileNotFoundError (Staged "artifacts/vectorizer.pkl"))
    = py_class (FileNotFoundError (Disk "config/run_id.txt")).
Proof.
  split; [exact corrupted_run_not_intact|].
  split; [reflexivity|]. split; [discriminate|].
  split; [exact incomplete_run_not_intact|].
  split; [reflexivity|]. split; [discriminate|].
  split; reflexivity.
Qed.

Lemma train_model_pointer_frame_demo :
  fs (train_model (env:=env) "config/args.json" "baselines" "sgd" true world).2 = fs world
  ∧ (train_model (env:=env) "config/args.json" "baselines" "sgd" true world).1 = Ok tt
  ∧ fs (train_model (env:=env) "config/args.json" "baselines" "sgd" true world).2
      !! "config/run_id.txt" = None
  ∧ (train_model (env:=env) "config/args.json" "baselines" "sgd" false world).1 = Ok tt
  ∧ fs (train_model (env:=env) "config/args.json" "baselines" "sgd" false world).2
      !! "config/run_id.txt" = Some (new_run_id (Env:=env) (tracking world))
  ∧ fs (train_model (env:=env) "config/args.json" "baselines" "sgd" false world).2
      !! "config/performance.json"
    = Some (dumps (Codec:=countable_codec Performance) report).
Proof.
  destruct (train_model_pointer_frame (env:=env) world "config/args.json" "baselines" "sgd")
    as (Htest & _ & _ & Hruns).
  destruct (Hruns (dumps (Codec:=countable_codec (list LabeledRow)) rows) rows
              (dumps (Codec:=countable_codec ArgumentSet) base_args) base_args
              (trained rows base_args))
    as (Hok1 & _ & Hp1 & _ & Hok2 & _ & Hp2 & Hs2 & _).
  - reflexivity.
  - apply countable_loads_dumps.
  - reflexivity.
  - apply countable_loads_dumps.
  - reflexivity.
  - split; [exact Htest|]. split; [exact Hok1|]. split; [exact Hp1|].
    split; [exact Hok2|]. split; [exact Hp2|exact Hs2].
Defined.


(** In the study of the instance the first five trials complete and the
    sixth, which reports a quarter where they reported a half, is pruned at
    step 5, its sixth report, and keeps the value of that report. *)
Lemma sixth_trial_pruned_at_step_5 :
  match (study_optimize (env:=env_reporting) rows 6 base_args [] blank).1 with
  | Ok study =>
      state <$> study.2 = [COMPLETE; COMPLETE; COMPLETE; COMPLETE; COMPLETE; PRUNED]
      ∧ (value <$> study.2) !! 5%nat = Some (Some (q 1 4))
  | Raise _ => False
  end
  ∧ MedianPruner.run_trial (replicate 5 (reports 0)) [] (reports 5)
    = (MedianPruner.PRUNED_AT 5, replicate 6 (q 1 4)).
Proof. split; vm_compute; [split|]; reflexivity. Qed.

End Instance.


(** * Further properties of the pipelines *)

Lemma slice_bound_minus_300 (n : nat) : slice_bound n (-300) = (n - 300)%nat.
Proof. unfold slice_bound. simpl. lia. Qed.

Lemma elem_of_pd_merge (projects : list ProjectRow) (tags : list TagRow) r :
  r ∈ pd_merge projects tags ↔
    ∃ p t, p ∈ projects ∧ t ∈ tags ∧ t_id t = p_id p
           ∧ r = {| r_id := p_id p; r_cols := p_cols p; r_tag := t_tag t |}.
Proof.
  unfold pd_merge. rewrite list_elem_of_bind. split.
  - intros (p & Hr & Hp). apply list_elem_of_bind in Hr as (t & Hr & Ht).
    apply list_elem_of_filter in Ht as [Hid Ht].
    apply list_elem_of_singleton in Hr. eauto 10.
  - intros (p & t & Hp & Ht & Hid & ->). exists p. split; [|done].
    apply list_elem_of_bind. exists t. split; [apply list_elem_of_here|].
    by apply list_elem_of_filter.
Qed.

Section Flows.

Context {objs : Objects} {env : Env}.

#[local] Abbreviation pointer := (Path CONFIG_DIR "run_id.txt").
#[local] Abbreviation snapshot := (Path CONFIG_DIR "performance.json").
#[local] Abbreviation labeled := (Path DATA_DIR "labeled_projects.csv").
#[local] Abbreviation held_out := (Path DATA_DIR "test_labeled_projects.csv").

(** ** [elt_data] *)

(** The world after [elt_data] when both tables arrive. *)
Lemma elt_data_Ok (w : World) cp ct projects tags :
  web w !! PROJECTS_URL = Some cp → loads cp = Some projects →
  web w !! TAGS_URL = Some ct → loads ct = Some tags →
  let df := drop_untagged (pd_merge projects tags) in
  elt_data w =
    (Ok tt,
     set_fs (λ f, <[held_out := dumps (drop (length df - 300) df)]>
                    (<[labeled := dumps (take (length df - 300) df)]>
                       (<[Path DATA_DIR "tags.csv" := dumps tags]>
                          (<[Path DATA_DIR "projects.csv" := dumps projects]> f)))) w).
Proof.
  intros Hp Hlp Ht Hlt df.
  unfold elt_data. step. rewrite Hp, Hlp. simpl. rewrite Ht, Hlt. simpl.
  fold df. unfold slice_from, slice_to. rewrite slice_bound_minus_300.
  reflexivity.
Qed.

(** X1. Whatever the number of labeled rows, [elt_data] cuts them in two
    files that together are the labeled rows in their order: the test file
    holds the last 300, or all of them when there are no more than 300, in
    which case the training file is written empty. *)
Theorem elt_data_split_any_size (w : World) cp ct projects tags :
  web w !! PROJECTS_URL = Some cp → loads cp = Some projects →
  web w !! TAGS_URL = Some ct → loads ct = Some tags →
  let df := drop_untagged (pd_merge projects tags) in
  ∃ w' train_df test_df,
    elt_data w = (Ok tt, w')
    ∧ fs w' !! labeled = Some (dumps train_df)
    ∧ fs w' !! held_out = Some (dumps test_df)
    ∧ train_df ++ test_df = df
    ∧ length test_df = (length df `min` 300)%nat
    ∧ ((length df ≤ 300)%nat → train_df = [] ∧ test_df = df).
Proof.
  intros Hp Hlp Ht Hlt df.
  exists (elt_data w).2, (take (length df - 300) df), (drop (length df - 300) df).
  rewrite (elt_data_Ok w cp ct projects tags) by done. fold df. simpl.
  split; [done|].
  split.
  { rewrite lookup_insert_ne by (by apply Path_ne). apply lookup_insert_eq. }
  split; [apply lookup_insert_eq|].
  split; [apply take_drop|].
  split; [rewrite length_drop; lia|].
  intros Hle. replace (length df - 300)%nat with 0%nat by lia. done.
Qed.

(** [elt_data] leaves the urls and the tracking store alone. *)
Lemma elt_data_frame (w : World) :
  tracking (elt_data w).2 = tracking w ∧ web (elt_data w).2 = web w.
Proof.
  unfold elt_data. step.
  destruct (web w !! PROJECTS_URL) as [cp|]; simpl; [|done].
  destruct (loads (A:=list ProjectRow) cp) as [projects|]; simpl; [|done].
  destruct (web w !! TAGS_URL) as [ct|]; simpl; [|done].
  by destruct (loads (A:=list TagRow) ct) as [tags|]; simpl.
Qed.

(** X2. [elt_data] fetches both tables before it writes anything.  When
    the projects cannot be fetched, or the projects arrive and the tags
    cannot be fetched, it raises the error of that fetch and no file is
    written.  When both tables arrive it goes through, the two copies it
    keeps load back as the tables fetched, it writes its four files in the
    data directory and no other, and the urls and the tracking store stay
    as they were. *)
Theorem elt_data_fetches_before_writing (w : World) :
  (web w !! PROJECTS_URL = None → elt_data w = (Raise (URLError PROJECTS_URL), w))
  ∧ (∀ cp (projects : list ProjectRow),
       web w !! PROJECTS_URL = Some cp → loads cp = Some projects →
       web w !! TAGS_URL = None →
       elt_data w = (Raise (URLError TAGS_URL), w))
  ∧ (∀ cp ct (projects : list ProjectRow) (tags : list TagRow),
       web w !! PROJECTS_URL = Some cp → loads cp = Some projects →
       web w !! TAGS_URL = Some ct → loads ct = Some tags →
       ∃ w', elt_data w = (Ok tt, w')
         ∧ (fs w' !! Path DATA_DIR "projects.csv" ≫= loads) = Some projects
         ∧ (fs w' !! Path DATA_DIR "tags.csv" ≫= loads) = Some tags
         ∧ is_Some (fs w' !! labeled) ∧ is_Some (fs w' !! held_out)
         ∧ (∀ p, p ∉ [Path DATA_DIR "projects.csv"; Path DATA_DIR "tags.csv";
                      labeled; held_out] →
                 fs w' !! p = fs w !! p)
         ∧ web w' = web w ∧ tracking w' = tracking w).
Proof.
  split; [|split].
  - intros Hp. unfold elt_data. step. by rewrite Hp.
  - intros cp projects Hp Hlp Ht. unfold elt_data. step.
    rewrite Hp, Hlp. simpl. by rewrite Ht.
  - intros cp ct projects tags Hp Hlp Ht Hlt.
    exists (elt_data w).2.
    rewrite (elt_data_Ok w cp ct projects tags) by done. simpl.
    split; [done|].
    split.
    { do 3 (rewrite lookup_insert_ne by (by apply Path_ne)).
      rewrite lookup_insert_eq. simpl. apply loads_dumps. }
    split.
    { do 2 (rewrite lookup_insert_ne by (by apply Path_ne)).
      rewrite lookup_insert_eq. simpl. apply loads_dumps. }
    split.
    { rewrite lookup_insert_ne by (by apply Path_ne).
      rewrite lookup_insert_eq. by eexists. }
    split; [rewrite lookup_insert_eq; by eexists|].
    split; [|done].
    intros p Hp'. rewrite !not_elem_of_cons in Hp'.
    destruct Hp' as (? & ? & ? & ? & _).
    by rewrite !lookup_insert_ne.
Qed.

(** X3. The two labeled files [elt_data] writes hold, between them, the
    inner join of the fetched tables on [id] without the untagged rows: a
    row is in the training file or in the test file exactly when it pairs
    a fetched project with a fetched tag row of the same [id] whose tag is
    not null.  A project all of whose tag rows are null, or that has none,
    has no row in either file. *)
Theorem labeled_files_hold_tagged_matches (w : World) cp ct
    (projects : list ProjectRow) (tags : list TagRow) :
  web w !! PROJECTS_URL = Some cp → loads cp = Some projects →
  web w !! TAGS_URL = Some ct → loads ct = Some tags →
  ∃ w' train_df test_df,
    elt_data w = (Ok tt, w')
    ∧ (fs w' !! labeled ≫= loads) = Some train_df
    ∧ (fs w' !! held_out ≫= loads) = Some test_df
    ∧ (∀ r, r ∈ train_df ∨ r ∈ test_df ↔
         ∃ p t tag, p ∈ projects ∧ t ∈ tags ∧ t_id t = p_id p ∧ t_tag t = Some tag
                    ∧ r = {| r_id := p_id p; r_cols := p_cols p; r_tag := Some tag |})
    ∧ (∀ p, p ∈ projects →
         (∀ t, t ∈ tags → t_id t = p_id p → t_tag t = None) →
         ∀ r, r ∈ train_df ∨ r ∈ test_df → r_id r ≠ p_id p).
Proof.
  intros Hp Hlp Ht Hlt.
  set (df := drop_untagged (pd_merge projects tags)).
  exists (elt_data w).2, (take (length df - 300) df), (drop (length df - 300) df).
  rewrite (elt_data_Ok w cp ct projects tags) by done. fold df. simpl.
  split; [done|].
  split.
  { rewrite lookup_insert_ne by (by apply Path_ne).
    rewrite lookup_insert_eq. simpl. apply loads_dumps. }
  split; [rewrite lookup_insert_eq; simpl; apply loads_dumps|].
  assert (Hrows : ∀ r, r ∈ take (length df - 300) df ∨ r ∈ drop (length df - 300) df ↔
            ∃ p t tag, p ∈ projects ∧ t ∈ tags ∧ t_id t = p_id p ∧ t_tag t = Some tag
                       ∧ r = {| r_id := p_id p; r_cols := p_cols p; r_tag := Some tag |}).
  { intros r. rewrite <- elem_of_app, take_drop. unfold df.
    rewrite elem_of_drop_untagged, elem_of_pd_merge. split.
    - intros [(p & t & Hp' & Ht' & Hid & ->) [tag Htag]]. simpl in Htag.
      exists p, t, tag. by rewrite <- Htag.
    - intros (p & t & tag & Hp' & Ht' & Hid & Htag & ->). split; [|by eexists].
      exists p, t. by rewrite Htag. }
  split; [exact Hrows|].
  intros p Hp' Hnull r Hr Hid.
  apply Hrows in Hr as (p' & t & tag & _ & Ht' & Hidt & Htag & ->). simpl in Hid.
  rewrite (Hnull t Ht') in Htag; [done|congruence].
Qed.

(** ** [train_model], [load_artifacts] and [predict_tag] together *)

Lemma fetch_bundle_eq (w : World) run_id :
  fetch_bundle run_id w =
    (match tracking w !! run_id with
     | Some r => read_bundle (run_artifacts r)
     | None => Raise (MlflowException run_id)
     end, w).
Proof.
  unfold fetch_bundle, download_artifacts. step.
  destruct (tracking w !! run_id) as [r|]; [|done].
  by destruct (read_bundle (run_artifacts r)).
Qed.

Lemma resolve_eq (w : World) run_id :
  resolve run_id w =
    (if falsy run_id
     then match fs w !! pointer with
          | Some p => Ok p
          | None => Raise (FileNotFoundError (Disk pointer))
          end
     else Ok (default "" run_id), w).
Proof.
  unfold resolve. destruct (falsy run_id); [|done].
  step. by destruct (fs w !! pointer).
Qed.

Lemma load_artifacts_resolved (w : World) run_id p :
  resolve run_id w = (Ok p, w) → load_artifacts run_id w = fetch_bundle p w.
Proof. intros Hr. unfold load_artifacts. by rewrite (bind_Ok _ _ _ _ _ Hr). Qed.

Lemma resolve_again (w : World) run_id p :
  resolve run_id w = (Ok p, w) → resolve (Some p) w = (Ok p, w).
Proof.
  rewrite !resolve_eq. simpl. case_bool_decide as Hp; [|done]. subst p.
  destruct (falsy run_id) eqn:Hf; [done|].
  destruct run_id as [s|]; [|done]. simpl in *.
  intros [= ->]. by rewrite bool_decide_eq_true_2 in Hf.
Qed.

Lemma predict_tag_resolved (w : World) text run_id p :
  resolve run_id w = (Ok p, w) →
  predict_tag text run_id w
  = (artifacts ← fetch_bundle p; mret (predict [text] artifacts)) w.
Proof.
  intros Hr. unfold predict_tag. rewrite (bind_Ok _ _ _ _ _ Hr).
  unfold mbind, M_bind, bind.
  by rewrite (load_artifacts_resolved w (Some p) p (resolve_again _ _ _ Hr)).
Qed.

(** X4. A training run that is not a test run becomes the current one:
    right after it, [load_artifacts] without identifier gives the
    artifacts of that run, and [predict_tag] without identifier predicts
    with them. *)
Theorem train_then_predict_by_pointer (w : World) args_fp experiment_name run_name
    c df a ns A text :
  fs w !! labeled = Some c → loads c = Some df →
  fs w !! args_fp = Some a → loads a = Some ns →
  train df ns = Ok A →
  ∃ w', train_model args_fp experiment_name run_name false w = (Ok tt, w')
        ∧ load_artifacts None w' = (Ok A, w')
        ∧ predict_tag text None w' = (Ok (predict [text] A), w').
Proof.
  intros Hc Hdf Ha Hns HA.
  eexists. split; [by eapply train_model_Ok|]. simpl.
  set (w' := {| web := web w; fs := _; tracking := _ |}).
  assert (Hres : resolve None w' = (Ok (new_run_id (tracking w)), w')).
  { rewrite resolve_eq. simpl.
    rewrite lookup_insert_ne by (by apply Path_ne). by rewrite lookup_insert_eq. }
  assert (Hfetch : fetch_bundle (new_run_id (tracking w)) w' = (Ok A, w')).
  { rewrite fetch_bundle_eq. simpl. rewrite lookup_insert_eq.
    by rewrite read_bundle_logged_run. }
  split.
  - by rewrite (load_artifacts_resolved _ _ _ Hres).
  - rewrite (predict_tag_resolved _ _ _ _ Hres).
    by rewrite (bind_Ok _ _ _ _ _ Hfetch).
Qed.

(** X5. A test run leaves the current run in place: when the pointer names
    a run other than the new one, [load_artifacts] and [predict_tag]
    without identifier give after the test run what they gave before. *)
Theorem test_run_keeps_current_run (w : World) args_fp experiment_name run_name
    c df a ns A p text :
  fs w !! labeled = Some c → loads c = Some df →
  fs w !! args_fp = Some a → loads a = Some ns →
  train df ns = Ok A →
  fs w !! pointer = Some p → p ≠ new_run_id (tracking w) →
  ∃ w', train_model args_fp experiment_name run_name true w = (Ok tt, w')
        ∧ (load_artifacts None w').1 = (load_artifacts None w).1
        ∧ (predict_tag text None w').1 = (predict_tag text None w).1.
Proof.
  intros Hc Hdf Ha Hns HA Hp Hne.
  eexists. split; [by eapply train_model_Ok|]. simpl.
  set (w' := {| web := web w; fs := _; tracking := _ |}).
  assert (Hres : resolve None w = (Ok p, w)) by (by rewrite resolve_eq; simpl; rewrite Hp).
  assert (Hres' : resolve None w' = (Ok p, w')) by (by rewrite resolve_eq; simpl; rewrite Hp).
  assert (Hfetch : (fetch_bundle p w').1 = (fetch_bundle p w).1).
  { rewrite !fetch_bundle_eq. simpl. by rewrite lookup_insert_ne. }
  split.
  - by rewrite (load_artifacts_resolved _ _ _ Hres), (load_artifacts_resolved _ _ _ Hres').
  - rewrite (predict_tag_resolved _ _ _ _ Hres), (predict_tag_resolved _ _ _ _ Hres').
    unfold mbind, M_bind, bind.
    rewrite !fetch_bundle_eq in *. simpl in *. rewrite Hfetch.
    by destruct (match tracking w !! p with Some r => _ | None => _ end).
Qed.

(** X6. [train_model] reads the data and the arguments before it opens a
    run.  When the labeled file is missing it raises [FileNotFoundError]
    for it; when the data load and the argument file is missing or is not
    an argument dictionary it raises for that file; in all three cases the
    world is as before.  When the training itself raises, its exception
    comes out and the run that was opened stays in the store without
    metrics or artifacts.  However [train_model] fails, no file is written:
    the pointer file and the snapshot are as they were. *)
Theorem train_model_failure_modes (w : World) args_fp experiment_name run_name test_run :
  (fs w !! labeled = None →
     train_model args_fp experiment_name run_name test_run w
     = (Raise (FileNotFoundError (Disk labeled)), w))
  ∧ (∀ c (df : list LabeledRow),
       fs w !! labeled = Some c → loads c = Some df → fs w !! args_fp = None →
       train_model args_fp experiment_name run_name test_run w
       = (Raise (FileNotFoundError (Disk args_fp)), w))
  ∧ (∀ c (df : list LabeledRow) a,
       fs w !! labeled = Some c → loads c = Some df →
       fs w !! args_fp = Some a → loads (A:=ArgumentSet) a = None →
       train_model args_fp experiment_name run_name test_run w
       = (Raise (JSONDecodeError (Disk args_fp)), w))
  ∧ (∀ c df a ns e,
       fs w !! labeled = Some c → loads c = Some df →
       fs w !! args_fp = Some a → loads a = Some ns →
       train df ns = Raise e →
       train_model args_fp experiment_name run_name test_run w
       = (Raise e, set_tracking <[new_run_id (tracking w) := empty_run]> w))
  ∧ (∀ e, (train_model args_fp experiment_name run_name test_run w).1 = Raise e →
       fs (train_model args_fp experiment_name run_name test_run w).2 = fs w).
Proof.
  split; [|split; [|split; [|split]]].
  - intros Hc. unfold train_model, read_labeled. step. by rewrite Hc.
  - intros c df Hc Hdf Ha. unfold train_model, read_labeled, load_dict. step.
    rewrite Hc, Hdf. simpl. by rewrite Ha.
  - intros c df a Hc Hdf Ha Hns. unfold train_model, read_labeled, load_dict. step.
    rewrite Hc, Hdf. simpl. by rewrite Ha, Hns.
  - intros c df a ns e Hc Hdf Ha Hns He.
    unfold train_model, read_labeled, load_dict, start_run. step.
    rewrite Hc, Hdf. simpl. rewrite Ha, Hns. simpl. by rewrite He.
  - intros e He.
    destruct (train_model_cases w args_fp experiment_name run_name test_run)
      as [(e' & w' & Heq & Hfs)|(c & df & a & ns & A & Hc & Hdf & Ha & Hns & HA)].
    + by rewrite Heq.
    + by rewrite (train_model_Ok w args_fp experiment_name run_name test_run
                    c df a ns A) in He.
Qed.

(** X7. [load_artifacts] and [predict_tag] only read: whatever they are
    given and however they end, files and tracking store are as before. *)
Theorem loading_changes_nothing (w : World) (run_id : option string) (text : string) :
  (load_artifacts run_id w).2 = w ∧ (predict_tag text run_id w).2 = w.
Proof.
  pose proof (resolve_eq w run_id) as Hres.
  destruct (resolve run_id w) as [[p|e] w0] eqn:Hr; injection Hres as Hres ->.
  - split.
    + rewrite (load_artifacts_resolved _ _ _ Hr), fetch_bundle_eq. done.
    + rewrite (predict_tag_resolved _ _ _ _ Hr).
      unfold mbind, M_bind, bind. rewrite fetch_bundle_eq.
      by destruct (match tracking w !! p with Some r => _ | None => _ end).
  - unfold load_artifacts, predict_tag, mbind, M_bind, bind. by rewrite Hr.
Qed.

(** X8. An identifier that names no run of the store, given or read from
    the pointer file, makes [load_artifacts] and [predict_tag] raise the
    exception of the tracking client for that identifier. *)
Theorem load_unknown_run_raises (w : World) (run_id : option string) p text :
  resolve run_id w = (Ok p, w) →
  tracking w !! p = None →
  load_artifacts run_id w = (Raise (MlflowException p), w)
  ∧ predict_tag text run_id w = (Raise (MlflowException p), w).
Proof.
  intros Hr Hp. split.
  - by rewrite (load_artifacts_resolved _ _ _ Hr), fetch_bundle_eq, Hp.
  - rewrite (predict_tag_resolved _ _ _ _ Hr).
    unfold mbind, M_bind, bind. by rewrite fetch_bundle_eq, Hp.
Qed.

(** X9. With an identifier that is not empty the pointer file plays no
    part: [load_artifacts] gives the same result whatever the files are. *)
Theorem explicit_run_id_ignores_files (w : World) run_id (files : gmap string string) :
  run_id ≠ "" →
  (load_artifacts (Some run_id) (set_fs (λ _, files) w)).1
  = (load_artifacts (Some run_id) w).1.
Proof.
  intros Hne.
  rewrite !load_artifacts_explicit by done. by rewrite !fetch_bundle_eq.
Qed.

Lemma staged_load_cases {A} `{Codec A} dp err rel :
  match staged_load (A:=A) dp err rel with
  | Ok x => loadable A dp rel
  | Raise e =>
      ¬ loadable A dp rel
      ∧ ((dp !! rel = None ∧ e = FileNotFoundError (Staged rel))
         ∨ (is_Some (dp !! rel) ∧ e = err (Staged rel)))
  end.
Proof.
  unfold staged_load, loadable.
  destruct (dp !! rel) as [c|] eqn:Hc.
  - destruct (loads c) as [y|] eqn:Hy; [by eauto|].
    split; [|by eauto]. intros (c' & x & [= <-] & Hx). congruence.
  - split; [|by eauto]. intros (c' & x & [=] & _).
Qed.

(** X10. When reading a bundle raises, the exception names the first file,
    in the order [load_artifacts] reads them, that is missing or does not
    load; the files before it load.  A missing file gives
    [FileNotFoundError], a file that is there and does not load gives the
    exception of its loader. *)
Theorem read_bundle_reports_first_bad_member (dp : gmap string string) e :
  read_bundle dp = Raise e →
  ∃ i rel,
    reading_order !! i = Some rel
    ∧ ¬ member_loadable dp rel
    ∧ ((dp !! rel = None ∧ e = FileNotFoundError (Staged rel))
       ∨ (is_Some (dp !! rel)
          ∧ (e = JSONDecodeError (Staged rel) ∨ e = UnpicklingError (Staged rel))))
    ∧ ∀ j rel', (j < i)%nat → reading_order !! j = Some rel' → member_loadable dp rel'.
Proof.
  unfold read_bundle.
  pose proof (staged_load_cases (A:=ArgumentSet) dp JSONDecodeError "artifacts/args.json") as H0.
  pose proof (staged_load_cases (A:=Vectorizer) dp UnpicklingError "artifacts/vectorizer.pkl") as H1.
  pose proof (staged_load_cases (A:=LabelEncoder) dp JSONDecodeError "artifacts/label_encoder.json") as H2.
  pose proof (staged_load_cases (A:=Performance) dp JSONDecodeError "artifacts/performance.json") as H3.
  pose proof (staged_load_cases (A:=Model) dp UnpicklingError "model/model.pkl") as H4.
  destruct (staged_load dp JSONDecodeError "artifacts/args.json") as [a|e0].
  2:{ intros [= <-]. destruct H0 as [Hn Hc]. exists 0%nat, "artifacts/args.json".
      split; [done|]. split.
      { intros [[_ ?]|[[[=] _]|[[[=] _]|[[[=] _]|[[=] _]]]]]. done. }
      split; [destruct Hc as [[? ->]|[? ->]]; eauto|].
      intros j rel' Hj. lia. }
  destruct (staged_load dp UnpicklingError "artifacts/vectorizer.pkl") as [v|e1].
  2:{ intros [= <-]. destruct H1 as [Hn Hc]. exists 1%nat, "artifacts/vectorizer.pkl".
      split; [done|]. split.
      { intros [[[=] _]|[[_ ?]|[[[=] _]|[[[=] _]|[[=] _]]]]]. done. }
      split; [destruct Hc as [[? ->]|[? ->]]; eauto|].
      intros [|j] rel' Hj Hrel; [|lia].
      injection Hrel as <-. left. done. }
  destruct (staged_load dp JSONDecodeError "artifacts/label_encoder.json") as [l|e2].
  2:{ intros [= <-]. destruct H2 as [Hn Hc]. exists 2%nat, "artifacts/label_encoder.json".
      split; [done|]. split.
      { intros [[[=] _]|[[[=] _]|[[_ ?]|[[[=] _]|[[=] _]]]]]. done. }
      split; [destruct Hc as [[? ->]|[? ->]]; eauto|].
      intros [|[|j]] rel' Hj Hrel; [| |lia]; injection Hrel as <-.
      - left. done.
      - right. left. done. }
  destruct (staged_load dp JSONDecodeError "artifacts/performance.json") as [p|e3].
  2:{ intros [= <-]. destruct H3 as [Hn Hc]. exists 3%nat, "artifacts/performance.json".
      split; [done|]. split.
      { intros [[[=] _]|[[[=] _]|[[[=] _]|[[_ ?]|[[=] _]]]]]. done. }
      split; [destruct Hc as [[? ->]|[? ->]]; eauto|].
      intros [|[|[|j]]] rel' Hj Hrel; [| | |lia]; injection Hrel as <-.
      - left. done.
      - right. left. done.
      - right. right. left. done. }
  destruct (staged_load dp UnpicklingError "model/model.pkl") as [m|e4].
  2:{ intros [= <-]. destruct H4 as [Hn Hc]. exists 4%nat, "model/model.pkl".
      split; [done|]. split.
      { intros [[[=] _]|[[[=] _]|[[[=] _]|[[[=] _]|[_ ?]]]]]. done. }
      split; [destruct Hc as [[? ->]|[? ->]]; eauto|].
      intros [|[|[|[|j]]]] rel' Hj Hrel; [| | | |lia]; injection Hrel as <-.
      - left. done.
      - right. left. done.
      - right. right. left. done.
      - right. right. right. left. done. }
  done.
Qed.

(** X11. A training run that is not a test run records its report three
    times, and the three agree: the snapshot file and the report stored
    with the run load as the report of the training, and the three metrics
    logged for the run are those of that report.  The parameters logged
    and the arguments stored are the ones the training returned. *)
Theorem report_recorded_consistently (w : World) args_fp experiment_name run_name
    c df a ns A :
  fs w !! labeled = Some c → loads c = Some df →
  fs w !! args_fp = Some a → loads a = Some ns →
  train df ns = Ok A →
  ∃ w' r,
    train_model args_fp experiment_name run_name false w = (Ok tt, w')
    ∧ tracking w' !! new_run_id (tracking w) = Some r
    ∧ (fs w' !! snapshot ≫= loads) = Some (performance A)
    ∧ (run_artifacts r !! "artifacts/performance.json" ≫= loads) = Some (performance A)
    ∧ run_metrics r !! "precision" = Some (precision (performance A))
    ∧ run_metrics r !! "recall" = Some (recall (performance A))
    ∧ run_metrics r !! "f1" = Some (f1 (performance A))
    ∧ run_params r = args A
    ∧ (run_artifacts r !! "artifacts/args.json" ≫= loads) = Some (args A).
Proof.
  intros Hc Hdf Ha Hns HA.
  eexists _, (logged_run A).
  split; [by eapply train_model_Ok|]. simpl.
  split; [apply lookup_insert_eq|].
  split; [rewrite lookup_insert_eq; simpl; apply loads_dumps|].
  split.
  { rewrite lookup_insert_ne by done. rewrite lookup_insert_eq. simpl. apply loads_dumps. }
  split; [do 2 (rewrite lookup_insert_ne by done); by rewrite lookup_insert_eq|].
  split; [rewrite lookup_insert_ne by done; by rewrite lookup_insert_eq|].
  split; [by rewrite lookup_insert_eq|].
  split; [apply (right_id_L ∅ (∪))|].
  do 4 (rewrite lookup_insert_ne by done).
  rewrite lookup_insert_eq. simpl. apply loads_dumps.
Qed.

(** ** [optimize] *)

Lemma best_trial_none (trials : list FrozenTrial) :
  (∀ t, t ∈ trials → state t ≠ COMPLETE) →
  best_trial trials = Raise (ValueError "No trials are completed yet.").
Proof.
  intros Hnone. unfold best_trial.
  assert (foldl update_best None trials = None) as ->; [|done].
  induction trials as [|t trials IH] using rev_ind; [done|].
  rewrite foldl_app. simpl. rewrite IH by (intros; apply Hnone; set_solver).
  unfold update_best. destruct (state t) eqn:Hst; [|done..].
  destruct (Hnone t); [set_solver|done].
Qed.

(** X12. A study that runs to its end has run exactly [n_trials] trials,
    numbered from 0 in the order they ran.  Each is the record of one call
    of the objective with the trials before it: completed with the value
    returned, pruned with the last value reported when the call raised
    [TrialPruned], failed and without a value when the call returned what
    the study does not take as a value.  A study ends early only by
    raising the exception of one of its objective calls. *)
Theorem study_runs_n_trials (df : list LabeledRow) (n : nat) (ns : ArgumentSet) (w : World) :
  match (study_optimize df n ns [] w).1 with
  | Ok study =>
      length study.2 = n
      ∧ ∀ i t, study.2 !! i = Some t →
          number t = i
          ∧ ∃ a, t = freeze i (objective a df (take i study.2) i).2
                 ∧ params t = sampled (objective a df (take i study.2) i).2
                 ∧ match outcome (objective a df (take i study.2) i).2 with
                   | Returns v => state t = COMPLETE ∧ value t = Some v
                   | RaisesTrialPruned last_report =>
                       state t = PRUNED ∧ value t = last_report
                   | ReturnsInvalid => state t = FAIL ∧ value t = None
                   | Raises _ => False
                   end
  | Raise e =>
      ∃ a ts, (length ts < n)%nat
              ∧ outcome (objective a df ts (length ts)).2 = Raises e
  end.
Proof.
  pose proof (study_optimize_trace df n ns [] w) as Htr.
  destruct (study_optimize df n ns [] w).1 as [study|e]; [|done].
  destruct Htr as (new & Hstudy & Hlen & Hnew). simpl in Hstudy.
  rewrite Hstudy. split; [done|].
  intros i t Ht. destruct (Hnew i t Ht) as (a & Heq & Hraise).
  simpl in Heq, Hraise. rewrite Hstudy in Heq, Hraise.
  split; [by rewrite Heq|].
  exists a. split; [done|]. split; [by rewrite Heq|].
  rewrite Heq. simpl.
  destruct (outcome (objective a df (take i new) i).2) eqn:Hout; try done.
  by destruct (Hraise e).
Qed.

(** When [optimize] raises, every file is as before. *)
Lemma optimize_raise_keeps_files (w : World) args_fp study_name num_trials :
  match (optimize args_fp study_name num_trials w).1 with
  | Raise _ => fs (optimize args_fp study_name num_trials w).2 = fs w
  | Ok _ =>
      ∃ tuned : ArgumentSet,
        fs (optimize args_fp study_name num_trials w).2
        = <[args_fp := dumps tuned]> (fs w)
  end.
Proof.
  unfold optimize, read_labeled, load_dict. step.
  destruct (fs w !! labeled) as [c|]; [|done]. simpl.
  destruct (loads (A:=list LabeledRow) c) as [df|]; [|done]. simpl.
  destruct (fs w !! args_fp) as [a|]; [|done]. simpl.
  destruct (loads (A:=ArgumentSet) a) as [ns|]; [|done]. simpl.
  pose proof (study_optimize_inv df (Z.to_nat num_trials) ns [] w) as [Hfs _].
  destruct (study_optimize df (Z.to_nat num_trials) ns [] w) as [[study|e] w1];
    simpl in *; [|done].
  destruct (sort_values_f1 study.2); simpl; [|done].
  destruct (best_trial study.2) as [best|]; simpl; [|done].
  rewrite Hfs. eauto.
Qed.

(** X13. [optimize] writes one file at most, the argument file, and only
    at its very end: when it raises, whatever the reason, every file is as
    before; when it goes through, the argument file holds a dictionary and
    the other files are as before. *)
Theorem optimize_writes_only_args_file (w : World) args_fp study_name num_trials :
  (∀ p, p ≠ args_fp →
        fs (optimize args_fp study_name num_trials w).2 !! p = fs w !! p)
  ∧ match (optimize args_fp study_name num_trials w).1 with
    | Raise _ => fs (optimize args_fp study_name num_trials w).2 = fs w
    | Ok _ =>
        ∃ tuned : ArgumentSet,
          fs (optimize args_fp study_name num_trials w).2
          = <[args_fp := dumps tuned]> (fs w)
    end.
Proof.
  pose proof (optimize_raise_keeps_files w args_fp study_name num_trials) as Hmain.
  split; [|exact Hmain].
  intros p Hp. destruct (optimize args_fp study_name num_trials w).1.
  - destruct Hmain as [tuned ->]. by rewrite lookup_insert_ne.
  - by rewrite Hmain.
Qed.

(** X14. When the study ends without a completed trial, [optimize] raises
    and the argument file keeps the arguments it had: [KeyError] for the
    [f1] column when no trial recorded the attribute, else the
    [ValueError] of [study.best_trial]. *)
Theorem optimize_without_completed_trial_raises (w w1 : World) args_fp study_name
    num_trials c df a ns ns1 (trials : list FrozenTrial) :
  fs w !! labeled = Some c → loads c = Some df →
  fs w !! args_fp = Some a → loads a = Some ns →
  study_optimize df (Z.to_nat num_trials) ns [] w = (Ok (ns1, trials), w1) →
  (∀ t, t ∈ trials → state t ≠ COMPLETE) →
  ∃ e, optimize args_fp study_name num_trials w = (Raise e, w1)
       ∧ e = (if existsb (λ t, bool_decide (is_Some (user_attrs_f1 t))) trials
              then ValueError "No trials are completed yet."
              else KeyError "user_attrs_f1")
       ∧ fs w1 !! args_fp = Some a.
Proof.
  intros Hc Hdf Ha Hns Hstudy Hnone.
  pose proof (study_optimize_inv df (Z.to_nat num_trials) ns [] w) as [Hfs _].
  rewrite Hstudy in Hfs. simpl in Hfs.
  eexists. split; [|split; [reflexivity|by rewrite Hfs]].
  unfold optimize, read_labeled, load_dict. step.
  rewrite Hc, Hdf. simpl. rewrite Ha, Hns. simpl. rewrite Hstudy. simpl.
  unfold sort_values_f1.
  destruct (existsb _ trials); simpl; [|done].
  by rewrite (best_trial_none trials Hnone).
Qed.

(** ** [train_model_pipeline] *)

(** [optimize] when the study ends with a best trial. *)
Lemma optimize_Ok (w w1 : World) args_fp study_name num_trials c df a ns ns1
    (trials : list FrozenTrial) best :
  fs w !! labeled = Some c → loads c = Some df →
  fs w !! args_fp = Some a → loads a = Some ns →
  study_optimize df (Z.to_nat num_trials) ns [] w = (Ok (ns1, trials), w1) →
  (∃ t, t ∈ trials ∧ is_Some (user_attrs_f1 t)) →
  best_trial trials = Ok best →
  optimize args_fp study_name num_trials w
  = (Ok tt, set_fs <[args_fp := dumps (params best ∪ ns1)]> w1)
  ∧ fs w1 = fs w.
Proof.
  intros Hc Hdf Ha Hns Hstudy (t1 & Ht1 & Hf1) Hbest.
  pose proof (study_optimize_inv df (Z.to_nat num_trials) ns [] w) as [Hfs _].
  rewrite Hstudy in Hfs. split; [|exact Hfs].
  unfold optimize, read_labeled, load_dict. step.
  rewrite Hc, Hdf. simpl. rewrite Ha, Hns. simpl. rewrite Hstudy. simpl.
  unfold sort_values_f1.
  assert (existsb (λ t, bool_decide (is_Some (user_attrs_f1 t))) trials = true) as ->.
  { apply existsb_exists. exists t1. split; [by apply list_elem_of_In|].
    by apply bool_decide_eq_true. }
  by rewrite Hbest.
Qed.

Lemma train_model_pipeline_flow args_fp experiment_name run_name :
  train_model_pipeline args_fp experiment_name run_name
  = flow 20 args_fp experiment_name run_name.
Proof. reflexivity. Qed.

Lemma flow_Ok (n : Z) (w w2 : World) args_fp experiment_name run_name
    cp ct projects tags a ns ns1 (trials : list FrozenTrial) best A :
  web w !! PROJECTS_URL = Some cp → loads cp = Some projects →
  web w !! TAGS_URL = Some ct → loads ct = Some tags →
  fs w !! args_fp = Some a → loads a = Some ns →
  args_fp ∉ [Path DATA_DIR "projects.csv"; Path DATA_DIR "tags.csv"; labeled; held_out] →
  let df := drop_untagged (pd_merge projects tags) in
  let train_df := take (length df - 300) df in
  study_optimize train_df (Z.to_nat n) ns [] (elt_data w).2 = (Ok (ns1, trials), w2) →
  (∃ t, t ∈ trials ∧ is_Some (user_attrs_f1 t)) →
  best_trial trials = Ok best →
  train train_df (params best ∪ ns1) = Ok A →
  ∃ w', flow n args_fp experiment_name run_name w = (Ok tt, w')
        ∧ load_artifacts None w' = (Ok A, w').
Proof.
  intros Hp Hlp Ht Hlt Ha Hns Hfp df train_df Hstudy Hattr Hbest HA.
  rewrite !not_elem_of_cons in Hfp. destruct Hfp as (Hfp1 & Hfp2 & Hfp3 & Hfp4 & _).
  pose proof (elt_data_Ok w cp ct projects tags Hp Hlp Ht Hlt) as Helt.
  simpl in Helt. fold df in Helt. fold train_df in Helt.
  rewrite Helt in Hstudy. simpl in Hstudy.
  set (w1 := set_fs _ w) in *.
  assert (Hlab1 : fs w1 !! labeled = Some (dumps train_df)).
  { simpl. rewrite lookup_insert_ne by (by apply Path_ne). apply lookup_insert_eq. }
  assert (Hargs1 : fs w1 !! args_fp = Some a).
  { simpl. by rewrite !lookup_insert_ne. }
  destruct (optimize_Ok w1 w2 args_fp "optimization" n (dumps train_df) train_df
              a ns ns1 trials best Hlab1 (loads_dumps _) Hargs1 Hns Hstudy Hattr Hbest)
    as [Hopt Hfs2].
  set (w3 := set_fs <[args_fp := dumps (params best ∪ ns1)]> w2) in *.
  assert (Hlab3 : fs w3 !! labeled = Some (dumps train_df)).
  { simpl. rewrite lookup_insert_ne by done. by rewrite Hfs2. }
  assert (Hargs3 : fs w3 !! args_fp = Some (dumps (params best ∪ ns1))).
  { simpl. apply lookup_insert_eq. }
  pose proof (train_model_Ok w3 args_fp experiment_name run_name false
                (dumps train_df) train_df (dumps (params best ∪ ns1))
                (params best ∪ ns1) A Hlab3 (loads_dumps _) Hargs3 (loads_dumps _) HA)
    as Htrain.
  match type of Htrain with _ = (_, ?W) => set (w' := W) in * end.
  exists w'. split.
  { unfold flow.
    by rewrite (bind_Ok _ _ _ _ _ Helt), (bind_Ok _ _ _ _ _ Hopt). }
  assert (Hres : resolve None w' = (Ok (new_run_id (tracking w3)), w')).
  { rewrite resolve_eq. unfold w'. cbn [fs falsy].
    rewrite lookup_insert_ne by (by apply Path_ne). by rewrite lookup_insert_eq. }
  rewrite (load_artifacts_resolved _ _ _ Hres), fetch_bundle_eq.
  unfold w'. cbn [tracking].
  rewrite lookup_insert_eq. by rewrite read_bundle_logged_run.
Qed.

(** X15. The flow tunes and trains on the training file of its own
    [elt_data] step: when the tables arrive, the study of 20 trials on all
    labeled rows but the last 300 ends with a best trial, and the training
    on these same rows with the tuned arguments goes through, the flow goes
    through and the run it leaves as current holds the artifacts of that
    training.  The last 300 labeled rows reach neither step. *)
Theorem pipeline_trains_on_training_file (w w2 : World) args_fp experiment_name run_name
    cp ct projects tags a ns ns1 (trials : list FrozenTrial) best A :
  web w !! PROJECTS_URL = Some cp → loads cp = Some projects →
  web w !! TAGS_URL = Some ct → loads ct = Some tags →
  fs w !! args_fp = Some a → loads a = Some ns →
  args_fp ∉ [Path DATA_DIR "projects.csv"; Path DATA_DIR "tags.csv"; labeled; held_out] →
  let df := drop_untagged (pd_merge projects tags) in
  let train_df := take (length df - 300) df in
  study_optimize train_df (Z.to_nat 20) ns [] (elt_data w).2 = (Ok (ns1, trials), w2) →
  (∃ t, t ∈ trials ∧ is_Some (user_attrs_f1 t)) →
  best_trial trials = Ok best →
  train train_df (params best ∪ ns1) = Ok A →
  ∃ w', train_model_pipeline args_fp experiment_name run_name w = (Ok tt, w')
        ∧ load_artifacts None w' = (Ok A, w').
Proof.
  intros Hp Hlp Ht Hlt Ha Hns Hfp df train_df Hstudy Hattr Hbest HA.
  rewrite train_model_pipeline_flow.
  exact (flow_Ok 20 w w2 args_fp experiment_name run_name cp ct projects tags a ns ns1
           trials best A Hp Hlp Ht Hlt Ha Hns Hfp Hstudy Hattr Hbest HA).
Qed.

Lemma flow_stops (n : Z) (w : World) args_fp experiment_name run_name :
  match (elt_data w).1 with
  | Raise e => flow n args_fp experiment_name run_name w = (Raise e, (elt_data w).2)
  | Ok _ =>
      match (optimize args_fp "optimization" n (elt_data w).2).1 with
      | Raise e =>
          flow n args_fp experiment_name run_name w
          = (Raise e, (optimize args_fp "optimization" n (elt_data w).2).2)
      | Ok _ =>
          flow n args_fp experiment_name run_name w
          = train_model args_fp experiment_name run_name false
              (optimize args_fp "optimization" n (elt_data w).2).2
      end
  end.
Proof.
  unfold flow, mbind, M_bind, bind.
  destruct (elt_data w) as [[[]|e] w1]; simpl; [|done].
  destruct (optimize args_fp "optimization" n w1) as [[[]|e] w2]; simpl; done.
Qed.

(** X16. The flow stops at its first step that raises.  When [elt_data]
    raises, the flow raises the same exception in the world [elt_data]
    left, nothing is tuned or trained and the tracking store is as before.
    When [elt_data] goes through and [optimize] raises, the flow raises the
    same exception, no training follows and the files are as [elt_data]
    left them.  When both go through, the flow ends as [train_model] does,
    called with [test_run] false. *)
Theorem pipeline_stops_at_first_failure (w : World) args_fp experiment_name run_name :
  (∀ e, (elt_data w).1 = Raise e →
     train_model_pipeline args_fp experiment_name run_name w = (Raise e, (elt_data w).2)
     ∧ tracking (elt_data w).2 = tracking w)
  ∧ (∀ e, (elt_data w).1 = Ok tt →
     (optimize args_fp "optimization" 20 (elt_data w).2).1 = Raise e →
     train_model_pipeline args_fp experiment_name run_name w
     = (Raise e, (optimize args_fp "optimization" 20 (elt_data w).2).2)
     ∧ fs (optimize args_fp "optimization" 20 (elt_data w).2).2 = fs (elt_data w).2)
  ∧ ((elt_data w).1 = Ok tt →
     (optimize args_fp "optimization" 20 (elt_data w).2).1 = Ok tt →
     train_model_pipeline args_fp experiment_name run_name w
     = train_model args_fp experiment_name run_name false
         (optimize args_fp "optimization" 20 (elt_data w).2).2).
Proof.
  rewrite train_model_pipeline_flow.
  pose proof (flow_stops 20 w args_fp experiment_name run_name) as Hflow.
  pose proof (optimize_raise_keeps_files (elt_data w).2 args_fp "optimization" 20) as Hfs.
  split; [|split].
  - intros e He. rewrite He in Hflow. split; [done|]. apply elt_data_frame.
  - intros e Helt He. rewrite Helt in Hflow. rewrite He in Hflow, Hfs. done.
  - intros Helt Hopt. rewrite Helt in Hflow. by rewrite Hopt in Hflow.
Qed.

End Flows.

(** ** The further properties on the concrete instance *)

Section FlowsInstance.

Import Demo.

Lemma elt_data_split_any_size_demo :
  let df := drop_untagged (pd_merge few_projects few_tags) in
  ∃ w' train_df test_df,
    elt_data (env:=env) few_remote = (Ok tt, w')
    ∧ fs w' !! "data/labeled_projects.csv"
        = Some (dumps (Codec:=countable_codec (list LabeledRow)) train_df)
    ∧ fs w' !! "data/test_labeled_projects.csv"
        = Some (dumps (Codec:=countable_codec (list LabeledRow)) test_df)
    ∧ train_df ++ test_df = df
    ∧ length test_df = 2%nat
    ∧ train_df = [] ∧ test_df = df.
Proof.
  intros df.
  destruct (elt_data_split_any_size (env:=env) few_remote
              (dumps (Codec:=countable_codec (list ProjectRow)) few_projects)
              (dumps (Codec:=countable_codec (list TagRow)) few_tags)
              few_projects few_tags)
    as (w' & train_df & test_df & Hrun & Htrain & Htest & Happ & Hlen & Hshort).
  - reflexivity.
  - apply countable_loads_dumps.
  - reflexivity.
  - apply countable_loads_dumps.
  - exists w', train_df, test_df.
    destruct Hshort as [Hnil Hall]; [vm_compute; lia|].
    repeat split; assumption.
Defined.

Lemma train_then_predict_by_pointer_demo :
  ∃ w', train_model (env:=env) "config/args.json" "baselines" "sgd" false world = (Ok tt, w')
        ∧ load_artifacts (env:=env) None w' = (Ok (trained rows base_args), w')
        ∧ predict_tag (env:=env) "a text" None w' = (Ok ["nlp"], w').
Proof.
  apply (train_then_predict_by_pointer (env:=env) world "config/args.json" "baselines" "sgd"
           (dumps (Codec:=countable_codec (list LabeledRow)) rows) rows
           (dumps (Codec:=countable_codec ArgumentSet) base_args) base_args
           (trained rows base_args) "a text").
  - reflexivity.
  - apply countable_loads_dumps.
  - reflexivity.
  - apply countable_loads_dumps.
  - reflexivity.
Defined.

Lemma test_run_keeps_current_run_demo :
  fs served !! "config/run_id.txt" = Some "current"
  ∧ "current" ≠ new_run_id (Env:=env) (tracking served)
  ∧ ∃ w', train_model (env:=env) "config/args.json" "baselines" "sgd" true served = (Ok tt, w')
          ∧ (load_artifacts (env:=env) None w').1 = (load_artifacts (env:=env) None served).1
          ∧ (predict_tag (env:=env) "a text" None w').1
            = (predict_tag (env:=env) "a text" None served).1.
Proof.
  assert (Hne : "current" ≠ new_run_id (Env:=env) (tracking served))
    by (vm_compute; discriminate).
  split; [reflexivity|]. split; [exact Hne|].
  apply (test_run_keeps_current_run (env:=env) served "config/args.json" "baselines" "sgd"
           (dumps (Codec:=countable_codec (list LabeledRow)) rows) rows
           (dumps (Codec:=countable_codec ArgumentSet) base_args) base_args
           (trained rows base_args) "current" "a text").
  - reflexivity.
  - apply countable_loads_dumps.
  - reflexivity.
  - apply countable_loads_dumps.
  - reflexivity.
  - reflexivity.
  - exact Hne.
Defined.

Lemma load_unknown_run_raises_demo :
  tracking served !! "gone" = None
  ∧ load_artifacts (env:=env) (Some "gone") served = (Raise (MlflowException "gone"), served)
  ∧ predict_tag (env:=env) "a text" (Some "gone") served
    = (Raise (MlflowException "gone"), served).
Proof.
  split; [reflexivity|].
  apply (load_unknown_run_raises (env:=env) served (Some "gone") "gone" "a text");
    reflexivity.
Defined.

Lemma explicit_run_id_ignores_files_demo :
  (load_artifacts (env:=env) (Some "current") (set_fs (λ _, ∅) served)).1
  = (load_artifacts (env:=env) (Some "current") served).1.
Proof.
  apply (explicit_run_id_ignores_files (env:=env) served "current" ∅). discriminate.
Defined.

Lemma read_bundle_reports_first_bad_member_demo :
  read_bundle (env:=env) (run_artifacts corrupted_run)
    = Raise (UnpicklingError (Staged "artifacts/vectorizer.pkl"))
  ∧ ∃ i rel,
      reading_order !! i = Some rel
      ∧ ¬ member_loadable (env:=env) (run_artifacts corrupted_run) rel
      ∧ ∀ j rel', (j < i)%nat → reading_order !! j = Some rel' →
          member_loadable (env:=env) (run_artifacts corrupted_run) rel'.
Proof.
  assert (Hread : read_bundle (env:=env) (run_artifacts corrupted_run)
                  = Raise (UnpicklingError (Staged "artifacts/vectorizer.pkl")))
    by (vm_compute; reflexivity).
  split; [exact Hread|].
  destruct (read_bundle_reports_first_bad_member (env:=env)
              (run_artifacts corrupted_run) _ Hread)
    as (i & rel & Hi & Hbad & _ & Hbefore).
  exists i, rel. repeat split; assumption.
Defined.

Lemma report_recorded_consistently_demo :
  ∃ w' r,
    train_model (env:=env) "config/args.json" "baselines" "sgd" false world = (Ok tt, w')
    ∧ tracking w' !! new_run_id (Env:=env) (tracking world) = Some r
    ∧ run_metrics r !! "f1" = Some (q 3 4)
    ∧ run_params r = <["num_classes" := VInt 2]> base_args.
Proof.
  destruct (report_recorded_consistently (env:=env) world "config/args.json" "baselines"
              "sgd" (dumps (Codec:=countable_codec (list LabeledRow)) rows) rows
              (dumps (Codec:=countable_codec ArgumentSet) base_args) base_args
              (trained rows base_args))
    as (w' & r & Hrun & Hr & _ & _ & _ & _ & Hf1 & Hparams & _).
  - reflexivity.
  - apply countable_loads_dumps.
  - reflexivity.
  - apply countable_loads_dumps.
  - reflexivity.
  - exists w', r. repeat split; assumption.
Defined.

Lemma pruned_study_demo :
  study_optimize (env:=env_pruned) rows (Z.to_nat 3) base_args [] world
  = (Ok (base_args, pruned3),
     (study_optimize (env:=env_pruned) rows (Z.to_nat 3) base_args [] world).2).
Proof. reflexivity. Qed.

Lemma optimize_without_completed_trial_raises_demo :
  optimize (env:=env_pruned) "config/args.json" "optimization" 3 world
  = (Raise (KeyError "user_attrs_f1"),
     (study_optimize (env:=env_pruned) rows (Z.to_nat 3) base_args [] world).2)
  ∧ fs (study_optimize (env:=env_pruned) rows (Z.to_nat 3) base_args [] world).2
      !! "config/args.json"
    = Some (dumps (Codec:=countable_codec ArgumentSet) base_args).
Proof.
  destruct (optimize_without_completed_trial_raises (env:=env_pruned) world
              (study_optimize (env:=env_pruned) rows (Z.to_nat 3) base_args [] world).2
              "config/args.json" "optimization" 3
              (dumps (Codec:=countable_codec (list LabeledRow)) rows) rows
              (dumps (Codec:=countable_codec ArgumentSet) base_args) base_args
              base_args pruned3)
    as (e & Hrun & He & Hfile).
  - reflexivity.
  - apply countable_loads_dumps.
  - reflexivity.
  - apply countable_loads_dumps.
  - exact pruned_study_demo.
  - intros t Ht. vm_compute in Ht.
    repeat (apply elem_of_cons in Ht as [->|Ht]; [discriminate|]).
    by apply elem_of_nil in Ht.
  - subst e. split; assumption.
Defined.

(** On an instance the result of the twenty trials does not depend on the
    world they run in. *)
Lemma twenty_trials (df : list LabeledRow) (w : World) :
  (study_optimize (env:=env) df (Z.to_nat 20) base_args [] w).1 = Ok (base_args, twenty).
Proof. vm_compute. reflexivity. Qed.

Lemma pipeline_trains_on_training_file_demo :
  let df := drop_untagged (pd_merge many_projects many_tags) in
  ∃ w', train_model_pipeline (env:=env) "config/args.json" "baselines" "sgd" start = (Ok tt, w')
        ∧ load_artifacts (env:=env) None w'
          = (Ok (trained (take (length df - 300) df) (params trial0 ∪ base_args)), w').
Proof.
  intros df.
  apply (pipeline_trains_on_training_file (env:=env) start
           (study_optimize (env:=env) (take (length df - 300) df) (Z.to_nat 20) base_args []
              (elt_data (env:=env) start).2).2
           "config/args.json" "baselines" "sgd"
           (dumps (Codec:=countable_codec (list ProjectRow)) many_projects)
           (dumps (Codec:=countable_codec (list TagRow)) many_tags)
           many_projects many_tags
           (dumps (Codec:=countable_codec ArgumentSet) base_args) base_args
           base_args twenty trial0
           (trained (take (length df - 300) df) (params trial0 ∪ base_args))).
  - reflexivity.
  - apply countable_loads_dumps.
  - reflexivity.
  - apply countable_loads_dumps.
  - reflexivity.
  - apply countable_loads_dumps.
  - repeat (apply not_elem_of_cons; split; [vm_compute; discriminate|]).
    apply not_elem_of_nil.
  - subst df.
    match goal with
    | |- ?S = _ =>
        assert (H20 : S.1 = Ok (base_args, twenty)) by apply twenty_trials;
        destruct S as [r w2]
    end.
    cbn [fst] in H20. subst r. reflexivity.
  - exists trial0. split; [|by eexists]. apply list_elem_of_here.
  - vm_compute. reflexivity.
  - reflexivity.
Defined.

Lemma elt_data_fetches_before_writing_demo :
  elt_data (env:=env) blank
    = (Raise (URLError "https://example.org/projects.csv"), blank)
  ∧ elt_data (env:=env) half_remote
    = (Raise (URLError "https://example.org/tags.csv"), half_remote)
  ∧ ∃ w', elt_data (env:=env) few_remote = (Ok tt, w')
      ∧ (fs w' !! "data/projects.csv" ≫= loads (Codec:=countable_codec (list ProjectRow)))
        = Some few_projects
      ∧ (fs w' !! "data/tags.csv" ≫= loads (Codec:=countable_codec (list TagRow)))
        = Some few_tags
      ∧ fs w' !! "config/args.json" = None.
Proof.
  split; [|split].
  - apply (proj1 (elt_data_fetches_before_writing (env:=env) blank)). reflexivity.
  - apply (proj1 (proj2 (elt_data_fetches_before_writing (env:=env) half_remote))
             (dumps (Codec:=countable_codec (list ProjectRow)) few_projects) few_projects).
    + reflexivity.
    + apply countable_loads_dumps.
    + reflexivity.
  - destruct (proj2 (proj2 (elt_data_fetches_before_writing (env:=env) few_remote))
                (dumps (Codec:=countable_codec (list ProjectRow)) few_projects)
                (dumps (Codec:=countable_codec (list TagRow)) few_tags)
                few_projects few_tags)
      as (w' & Hrun & Hp & Ht & _ & _ & Hother & _).
    + reflexivity.
    + apply countable_loads_dumps.
    + reflexivity.
    + apply countable_loads_dumps.
    + exists w'. split; [exact Hrun|]. split; [exact Hp|]. split; [exact Ht|].
      rewrite (Hother "config/args.json"); [reflexivity|].
      repeat (apply not_elem_of_cons; split; [vm_compute; discriminate|]).
      apply not_elem_of_nil.
Defined.

Lemma labeled_files_hold_tagged_matches_demo :
  ∃ w' train_df test_df,
    elt_data (env:=env) few_remote = (Ok tt, w')
    ∧ (fs w' !! "data/labeled_projects.csv"
         ≫= loads (Codec:=countable_codec (list LabeledRow))) = Some train_df
    ∧ (fs w' !! "data/test_labeled_projects.csv"
         ≫= loads (Codec:=countable_codec (list LabeledRow))) = Some test_df
    ∧ (∀ r, r ∈ train_df ∨ r ∈ test_df ↔
         ∃ p t tag, p ∈ few_projects ∧ t ∈ few_tags ∧ t_id t = p_id p
                    ∧ t_tag t = Some tag
                    ∧ r = {| r_id := p_id p; r_cols := p_cols p; r_tag := Some tag |}).
Proof.
  destruct (labeled_files_hold_tagged_matches (env:=env) few_remote
              (dumps (Codec:=countable_codec (list ProjectRow)) few_projects)
              (dumps (Codec:=countable_codec (list TagRow)) few_tags)
              few_projects few_tags)
    as (w' & train_df & test_df & Hrun & Htrain & Htest & Hrows & _).
  - reflexivity.
  - apply countable_loads_dumps.
  - reflexivity.
  - apply countable_loads_dumps.
  - exists w', train_df, test_df. repeat split; try assumption; apply Hrows.
Defined.

Lemma train_model_failure_modes_demo :
  train_model (env:=env) "config/args.json" "baselines" "sgd" false blank
    = (Raise (FileNotFoundError (Disk "data/labeled_projects.csv")), blank)
  ∧ train_model (env:=env) "config/none.json" "baselines" "sgd" false world
    = (Raise (FileNotFoundError (Disk "config/none.json")), world)
  ∧ train_model (env:=env) "config/args.json" "baselines" "sgd" false garbled
    = (Raise (JSONDecodeError (Disk "config/args.json")), garbled)
  ∧ train_model (env:=env_failing) "config/args.json" "baselines" "sgd" false world
    = (Raise (TrainingError "no rows"),
       set_tracking <[new_run_id (Env:=env_failing) (tracking world)
                        := empty_run]> world)
  ∧ fs (train_model (env:=env_failing) "config/args.json" "baselines" "sgd" false world).2
    = fs world.
Proof.
  split; [|split; [|split; [|split]]].
  - apply (proj1 (train_model_failure_modes (env:=env) blank "config/args.json"
                    "baselines" "sgd" false)). reflexivity.
  - apply (proj1 (proj2 (train_model_failure_modes (env:=env) world "config/none.json"
                           "baselines" "sgd" false))
             (dumps (Codec:=countable_codec (list LabeledRow)) rows) rows).
    + reflexivity.
    + apply countable_loads_dumps.
    + reflexivity.
  - apply (proj1 (proj2 (proj2 (train_model_failure_modes (env:=env) garbled
                                  "config/args.json" "baselines" "sgd" false)))
             (dumps (Codec:=countable_codec (list LabeledRow)) rows) rows "{").
    + reflexivity.
    + apply countable_loads_dumps.
    + reflexivity.
    + vm_compute. reflexivity.
  - apply (proj1 (proj2 (proj2 (proj2 (train_model_failure_modes (env:=env_failing) world
                                  "config/args.json" "baselines" "sgd" false))))
             (dumps (Codec:=countable_codec (list LabeledRow)) rows) rows
             (dumps (Codec:=countable_codec ArgumentSet) base_args) base_args
             (TrainingError "no rows")).
    + reflexivity.
    + apply countable_loads_dumps.
    + reflexivity.
    + apply countable_loads_dumps.
    + reflexivity.
  - apply (proj2 (proj2 (proj2 (proj2 (train_model_failure_modes (env:=env_failing) world
                                  "config/args.json" "baselines" "sgd" false))))
             (TrainingError "no rows")).
    reflexivity.
Defined.

Lemma study_runs_n_trials_demo :
  ∃ study,
    (study_optimize (env:=env_nan) rows 3 base_args [] world).1 = Ok study
    ∧ state <$> study.2 = [COMPLETE; FAIL; PRUNED]
    ∧ length study.2 = 3%nat
    ∧ ∀ i t, study.2 !! i = Some t →
        number t = i
        ∧ ∃ a, t = freeze i (objective (Env:=env_nan) a rows (take i study.2) i).2.
Proof.
  pose proof (study_runs_n_trials (env:=env_nan) rows 3 base_args world) as Hstudy.
  destruct (study_optimize (env:=env_nan) rows 3 base_args [] world).1
    as [study|e] eqn:Hrun; [|vm_compute in Hrun; discriminate].
  exists study. split; [reflexivity|].
  split; [vm_compute in Hrun; injection Hrun as <-; reflexivity|].
  destruct Hstudy as [Hlen Htrials]. split; [exact Hlen|].
  intros i t Ht. destruct (Htrials i t Ht) as (Hnum & a & Heq & _).
  split; [exact Hnum|]. exists a. exact Heq.
Defined.

Lemma pipeline_stops_at_first_failure_demo :
  train_model_pipeline (env:=env) "config/args.json" "baselines" "sgd" blank
    = (Raise (URLError "https://example.org/projects.csv"), blank)
  ∧ (train_model_pipeline (env:=env) "config/args.json" "baselines" "sgd" few_remote).1
    = Raise (FileNotFoundError (Disk "config/args.json"))
  ∧ tracking (train_model_pipeline (env:=env) "config/args.json" "baselines" "sgd"
                few_remote).2 = ∅
  ∧ fs (train_model_pipeline (env:=env) "config/args.json" "baselines" "sgd"
          few_remote).2 = fs (elt_data (env:=env) few_remote).2.
Proof.
  split.
  - apply (proj1 (pipeline_stops_at_first_failure (env:=env) blank "config/args.json"
                    "baselines" "sgd") (URLError "https://example.org/projects.csv")).
    reflexivity.
  - destruct (proj1 (proj2 (pipeline_stops_at_first_failure (env:=env) few_remote
                              "config/args.json" "baselines" "sgd"))
                (FileNotFoundError (Disk "config/args.json")))
      as [Hrun Hfs].
    + reflexivity.
    + reflexivity.
    + rewrite Hrun. split; [reflexivity|]. split; [reflexivity|exact Hfs].
Defined.

End FlowsInstance.
